(** * Piedra, Papel o Tijera: a shallow embedding of [src/js/main.js]

    The script keeps one global object [estadisticas], two [localStorage]
    slots and a few DOM nodes.  The handlers are modelled as functions on
    a record [Mundo] that holds exactly those pieces.

    Modelling conventions.
    - A JS string is a Rocq [string]: one character per UTF-16 code unit,
      code units 0 to 255 only.
    - A JS number that holds an integer is a [Z]; [x++] is [x + 1].  The
      counters start at 0 and grow by one per round, far below 2^53 where
      JS numbers stop being exact.  A stored text can hold a larger
      integer; [JSON.parse] rounds it to a double where the model keeps it
      as written, so what is said of loaded values is said of integers up
      to 2^53 in magnitude ([enterosExactos]).
    - A JS object is an association list in property order, because
      [JSON.stringify] writes the properties in that order.
    - A handler returns [option]: [None] stands for a run that throws, or
      that reaches JS behaviour left out of the model (coercions of
      ill-typed statistics, numbers with a fraction or an exponent, the
      negative zero, code units above 255).
    - The page has the elements the script looks up by id, and the storage
      accepts every write.
    - [Math.random] and [matchMedia] are inputs of the handlers that call
      them. *)

From Stdlib Require Import ZArith Ascii String List Lia Decimal DecimalFacts DecimalPos DecimalN DecimalZ.
From stdpp Require Import base option list gmap strings.

Local Open Scope Z_scope.

(** ** JSON values *)

Unset Elimination Schemes.
Inductive valor : Type :=
| VNull
| VBool (b : bool)
| VNum (n : Z)
| VStr (s : string)
| VArr (l : list valor)
| VObj (l : list (string * valor)).
Set Elimination Schemes.

(** Induction on values, with the elements of arrays and the property
    values of objects as induction hypotheses. *)
Section Induccion.
Variable P : valor -> Prop.
Hypothesis Hnull : P VNull.
Hypothesis Hbool : forall b, P (VBool b).
Hypothesis Hnum : forall n, P (VNum n).
Hypothesis Hstr : forall s, P (VStr s).
Hypothesis Harr : forall l, Forall P l -> P (VArr l).
Hypothesis Hobj : forall l, Forall (fun p => P p.2) l -> P (VObj l).

Fixpoint valor_ind (v : valor) : P v :=
  match v with
  | VNull => Hnull
  | VBool b => Hbool b
  | VNum n => Hnum n
  | VStr s => Hstr s
  | VArr l =>
      Harr l
        ((fix todos (l : list valor) : Forall P l :=
            match l with
            | [] => List.Forall_nil P
            | x :: l' => List.Forall_cons P x l' (valor_ind x) (todos l')
            end) l)
  | VObj l =>
      Hobj l
        ((fix todos (l : list (string * valor)) : Forall (fun p => P p.2) l :=
            match l with
            | [] => List.Forall_nil _
            | p :: l' => List.Forall_cons _ p l' (valor_ind p.2) (todos l')
            end) l)
  end.
End Induccion.

(** Property lookup and assignment on the property list of an object.
    An assignment to an existing property keeps its place; a new property
    goes last. *)
Fixpoint buscar (k : string) (l : list (string * valor)) : option valor :=
  match l with
  | [] => None
  | (k', v) :: l' => if String.eqb k k' then Some v else buscar k l'
  end.

Fixpoint poner (k : string) (v : valor) (l : list (string * valor))
  : list (string * valor) :=
  match l with
  | [] => [(k, v)]
  | (k', v') :: l' =>
      if String.eqb k k' then (k, v) :: l' else (k', v') :: poner k v l'
  end.

(** ** [JSON.stringify] *)

Module Texto.

Local Open Scope char_scope.

(** Characters of a string, and back. *)
Definition letras : string -> list ascii := list_ascii_of_string.
Definition cadena : list ascii -> string := string_of_list_ascii.

Fixpoint digitos (d : uint) : list ascii :=
  match d with
  | Nil => []
  | D0 d => "0" :: digitos d
  | D1 d => "1" :: digitos d
  | D2 d => "2" :: digitos d
  | D3 d => "3" :: digitos d
  | D4 d => "4" :: digitos d
  | D5 d => "5" :: digitos d
  | D6 d => "6" :: digitos d
  | D7 d => "7" :: digitos d
  | D8 d => "8" :: digitos d
  | D9 d => "9" :: digitos d
  end.

(** Decimal text of an integer, as [Number::toString] gives it. *)
Definition cifras (n : Z) : list ascii :=
  match Z.to_int n with
  | Pos d => digitos d
  | Neg d => "-" :: digitos d
  end.

Definition hexa (n : N) : ascii :=
  match n with
  | 0%N => "0" | 1%N => "1" | 2%N => "2" | 3%N => "3" | 4%N => "4"
  | 5%N => "5" | 6%N => "6" | 7%N => "7" | 8%N => "8" | 9%N => "9"
  | 10%N => "a" | 11%N => "b" | 12%N => "c" | 13%N => "d" | 14%N => "e"
  | _ => "f"
  end.

(** [QuoteJSONString], one code unit: the short escapes, [\u00xx] for the
    other control characters, everything else as it is. *)
Definition escapa (c : ascii) : list ascii :=
  match c with
  | "008" => ["\"; "b"]
  | "009" => ["\"; "t"]
  | "010" => ["\"; "n"]
  | "012" => ["\"; "f"]
  | "013" => ["\"; "r"]
  | "034" => ["\"; "034"]
  | "\" => ["\"; "\"]
  | _ =>
      if (N_of_ascii c <? 32)%N
      then ["\"; "u"; "0"; "0"; hexa (N_of_ascii c / 16); hexa (N_of_ascii c mod 16)]
      else [c]
  end.

Definition comillas (s : list ascii) : list ascii :=
  "034" :: flat_map escapa s ++ ["034"].

Fixpoint unir (sep : ascii) (ps : list (list ascii)) : list ascii :=
  match ps with
  | [] => []
  | [p] => p
  | p :: ps' => p ++ sep :: unir sep ps'
  end.

Fixpoint escribe (v : valor) : list ascii :=
  match v with
  | VNull => ["n"; "u"; "l"; "l"]
  | VBool true => ["t"; "r"; "u"; "e"]
  | VBool false => ["f"; "a"; "l"; "s"; "e"]
  | VNum n => cifras n
  | VStr s => comillas (letras s)
  | VArr l => "[" :: unir "," (map escribe l) ++ ["]"]
  | VObj l =>
      "{" :: unir "," (map (fun p => comillas (letras p.1) ++ ":" :: escribe p.2) l)
          ++ ["}"]
  end.

End Texto.

Definition JSON_stringify (v : valor) : string :=
  Texto.cadena (Texto.escribe v).

(** ** [JSON.parse] *)

Module Lector.

Import Texto.
Local Open Scope char_scope.

(** JSON white space: space, tab, line feed, carriage return. *)
Definition esBlanco (c : ascii) : bool :=
  match c with
  | " " | "009" | "010" | "013" => true
  | _ => false
  end.

Fixpoint saltaBlancos (s : list ascii) : list ascii :=
  match s with
  | c :: r => if esBlanco c then saltaBlancos r else s
  | [] => []
  end.

Definition digito (c : ascii) : option (uint -> uint) :=
  match c with
  | "0" => Some D0 | "1" => Some D1 | "2" => Some D2 | "3" => Some D3
  | "4" => Some D4 | "5" => Some D5 | "6" => Some D6 | "7" => Some D7
  | "8" => Some D8 | "9" => Some D9
  | _ => None
  end.

(** The longest run of decimal digits at the head of the text. *)
Fixpoint leeDigitos (s : list ascii) : uint * list ascii :=
  match s with
  | c :: r =>
      match digito c with
      | Some f => let '(d, r') := leeDigitos r in (f d, r')
      | None => (Nil, s)
      end
  | [] => (Nil, [])
  end.

Definition esInicioNumero (c : ascii) : bool :=
  match c with
  | "-" => true
  | _ => match digito c with Some _ => true | None => false end
  end.

Definition sigueNumero (r : list ascii) : bool :=
  match r with
  | "." :: _ | "e" :: _ | "E" :: _ => true
  | _ => false
  end.

(** The JSON grammar of an integer part: [0], or digits that start with
    [1] to [9]. *)
Definition parteEntera (d : uint) : bool :=
  match d with
  | Nil => false
  | D0 Nil => true
  | D0 _ => false
  | _ => true
  end.

(** The text [-0], which JS reads as the negative zero. *)
Definition menosCero (signo : bool) (d : uint) : bool :=
  signo && match d with D0 Nil => true | _ => false end.

(** A JSON number without fraction or exponent: an optional minus sign and
    an integer part.  A fraction, an exponent or [-0] gives [None]: such
    numbers are not integers of the model.  The integer read is the exact
    one; JS rounds it to a double, which is the same number up to [2^53]
    in magnitude (see [enterosExactos]). *)
Definition leeNumero (s : list ascii) : option (Z * list ascii) :=
  let '(signo, s1) :=
    match s with "-" :: r => (true, r) | _ => (false, s) end in
  let '(d, r) := leeDigitos s1 in
  if parteEntera d then
    if sigueNumero r then None
    else if menosCero signo d then None
    else Some (Z.of_int (if signo : bool then Neg d else Pos d), r)
  else None.

Definition valorHexa (c : ascii) : option N :=
  match c with
  | "0" => Some 0%N | "1" => Some 1%N | "2" => Some 2%N | "3" => Some 3%N
  | "4" => Some 4%N | "5" => Some 5%N | "6" => Some 6%N | "7" => Some 7%N
  | "8" => Some 8%N | "9" => Some 9%N
  | "a" | "A" => Some 10%N | "b" | "B" => Some 11%N | "c" | "C" => Some 12%N
  | "d" | "D" => Some 13%N | "e" | "E" => Some 14%N | "f" | "F" => Some 15%N
  | _ => None
  end.

(** The code unit of [\uh1h2h3h4], when it is below 256. *)
Definition unidad (h1 h2 h3 h4 : ascii) : option ascii :=
  a ← valorHexa h1; b ← valorHexa h2; c ← valorHexa h3; d ← valorHexa h4;
  if decide (a = 0%N /\ b = 0%N) then Some (ascii_of_N (c * 16 + d)) else None.

(** The characters of a JSON string, read after its opening quote, up to
    and including the closing quote. *)
Fixpoint leeCadena (s : list ascii) : option (list ascii * list ascii) :=
  match s with
  | [] => None
  | "034" :: r => Some ([], r)
  | "\" :: e :: r =>
      match e with
      | "u" =>
          match r with
          | h1 :: h2 :: h3 :: h4 :: r' =>
              c ← unidad h1 h2 h3 h4;
              '(k, r'') ← leeCadena r'; Some (c :: k, r'')
          | _ => None
          end
      | _ =>
          c ← match e with
              | "034" => Some "034" | "\" => Some "\" | "/" => Some "/"
              | "b" => Some "008" | "f" => Some "012" | "n" => Some "010"
              | "r" => Some "013" | "t" => Some "009"
              | _ => None
              end;
          '(k, r') ← leeCadena r; Some (c :: k, r')
      end
  | c :: r =>
      if (N_of_ascii c <? 32)%N then None
      else '(k, r') ← leeCadena r; Some (c :: k, r')
  end.

Fixpoint prefijo (p s : list ascii) : option (list ascii) :=
  match p, s with
  | [], _ => Some s
  | a :: p', b :: s' => if Ascii.eqb a b then prefijo p' s' else None
  | _ :: _, [] => None
  end.

(** The text after white space and the character [f], when [f] comes
    next. *)
Definition cierra (f : ascii) (s : list ascii) : option (list ascii) :=
  match saltaBlancos s with
  | c :: r => if Ascii.eqb c f then Some r else None
  | [] => None
  end.

(** A property name made of digits only: JS keeps such properties before
    the others, in numeric order, so an object that has one is not an
    association list in source order. *)
Definition esIndice (k : list ascii) : bool :=
  match k with
  | [] => false
  | _ => forallb (fun c => match digito c with Some _ => true | None => false end) k
  end.

(** The object built from the members in source order: a repeated name
    keeps its first place and takes the last value. *)
Definition objetoDe (ms : list (string * valor)) : list (string * valor) :=
  fold_left (fun l m => poner m.1 m.2 l) ms [].

(** Recursive descent with fuel: [parseValor] reads one value,
    [parseElementos] the elements of an array after its bracket,
    [parseMiembros] the members of an object after its brace. *)
Fixpoint parseValor (n : nat) (s : list ascii) {struct n}
  : option (valor * list ascii) :=
  match n with
  | O => None
  | S n =>
      match saltaBlancos s with
      | [] => None
      | c :: r =>
          if esInicioNumero c then
            '(z, r') ← leeNumero (c :: r); Some (VNum z, r')
          else
            match c with
            | "n" => r' ← prefijo ["u"; "l"; "l"] r; Some (VNull, r')
            | "t" => r' ← prefijo ["r"; "u"; "e"] r; Some (VBool true, r')
            | "f" => r' ← prefijo ["a"; "l"; "s"; "e"] r; Some (VBool false, r')
            | "034" => '(k, r') ← leeCadena r; Some (VStr (cadena k), r')
            | "[" =>
                match cierra "]" r with
                | Some r' => Some (VArr [], r')
                | None => '(l, r') ← parseElementos n r; Some (VArr l, r')
                end
            | "{" =>
                match cierra "}" r with
                | Some r' => Some (VObj [], r')
                | None =>
                    '(ms, r') ← parseMiembros n r;
                    if existsb (fun m => esIndice (letras m.1)) ms then None
                    else Some (VObj (objetoDe ms), r')
                end
            | _ => None
            end
      end
  end
with parseElementos (n : nat) (s : list ascii) {struct n}
  : option (list valor * list ascii) :=
  match n with
  | O => None
  | S n =>
      '(v, r) ← parseValor n s;
      match saltaBlancos r with
      | "," :: r' => '(l, r'') ← parseElementos n r'; Some (v :: l, r'')
      | "]" :: r' => Some ([v], r')
      | _ => None
      end
  end
with parseMiembros (n : nat) (s : list ascii) {struct n}
  : option (list (string * valor) * list ascii) :=
  match n with
  | O => None
  | S n =>
      match saltaBlancos s with
      | "034" :: r =>
          '(k, r1) ← leeCadena r;
          match saltaBlancos r1 with
          | ":" :: r2 =>
              '(v, r3) ← parseValor n r2;
              match saltaBlancos r3 with
              | "," :: r4 =>
                  '(l, r5) ← parseMiembros n r4; Some ((cadena k, v) :: l, r5)
              | "}" :: r4 => Some ([(cadena k, v)], r4)
              | _ => None
              end
          | _ => None
          end
      | _ => None
      end
  end.

(** *** What the reader is asked to do

    Notions used to state that the reader undoes the writer. *)

(** What may follow a value inside a JSON text: the end, a comma or a
    closing bracket or brace. *)
Definition delimita (r : list ascii) : bool :=
  match r with
  | [] => true
  | "," :: _ | "]" :: _ | "}" :: _ => true
  | _ => false
  end.

(** Fuel that is enough to read a value back. *)
Fixpoint peso (v : valor) : nat :=
  match v with
  | VArr l => S (foldr (fun x a => S (peso x + a)) 0%nat l)
  | VObj l => S (foldr (fun p a => S (peso p.2 + a)) 0%nat l)
  | _ => 1
  end.

Definition pesoElementos (l : list valor) : nat :=
  foldr (fun x a => S (peso x + a)) 0%nat l.

Definition pesoMiembros (l : list (string * valor)) : nat :=
  foldr (fun p a => S (peso p.2 + a)) 0%nat l.

(** What [parseValor] is asked to do for a value [v]. *)
Definition legible (v : valor) : Prop :=
  forall n r, (peso v <= n)%nat -> delimita r = true ->
    parseValor n (escribe v ++ r) = Some (v, r).

End Lector.

(** [JSON.parse]: one value, white space around it, nothing after it.
    [None] is a [SyntaxError] or a text outside the model. *)
Definition JSON_parse (s : string) : option valor :=
  let t := Texto.letras s in
  match Lector.parseValor (S (length t)) t with
  | Some (v, r) =>
      match Lector.saltaBlancos r with [] => Some v | _ => None end
  | None => None
  end.

(** ** The page: global state, storage and DOM *)

(** The [body] element: whether its class list has [dark], and the two
    inline colours the script sets. *)
Record Cuerpo : Type := {
  oscuro : bool;
  backgroundColor : string;
  color : string
}.

(** The text nodes the script writes: the result message, the four
    counters and the items (class name, text) of the history list.  The
    page is taken to have these elements. *)
Record Pantalla : Type := {
  resultadoPartida : string;
  rondasJugadas : string;
  ganadasUsuario : string;
  ganadasComput : string;
  rondasEmpates : string;
  listaRondas : list (string * string)
}.

Record Mundo : Type := {
  estadisticas : valor;
  localStorage : gmap string string;
  body : Cuerpo;
  (** text of the [span] in the toggle button; [None] when the page has
      no such button or span *)
  etiquetaModo : option string;
  pantalla : Pantalla
}.

Definition conEstadisticas (e : valor) (w : Mundo) : Mundo :=
  {| estadisticas := e; localStorage := localStorage w; body := body w;
     etiquetaModo := etiquetaModo w; pantalla := pantalla w |}.

Definition conAlmacen (m : gmap string string) (w : Mundo) : Mundo :=
  {| estadisticas := estadisticas w; localStorage := m; body := body w;
     etiquetaModo := etiquetaModo w; pantalla := pantalla w |}.

Definition conCuerpo (b : Cuerpo) (w : Mundo) : Mundo :=
  {| estadisticas := estadisticas w; localStorage := localStorage w; body := b;
     etiquetaModo := etiquetaModo w; pantalla := pantalla w |}.

Definition conEtiqueta (t : option string) (w : Mundo) : Mundo :=
  {| estadisticas := estadisticas w; localStorage := localStorage w;
     body := body w; etiquetaModo := t; pantalla := pantalla w |}.

Definition conPantalla (p : Pantalla) (w : Mundo) : Mundo :=
  {| estadisticas := estadisticas w; localStorage := localStorage w;
     body := body w; etiquetaModo := etiquetaModo w; pantalla := p |}.

Definition conResultado (t : string) (p : Pantalla) : Pantalla :=
  {| resultadoPartida := t; rondasJugadas := rondasJugadas p;
     ganadasUsuario := ganadasUsuario p; ganadasComput := ganadasComput p;
     rondasEmpates := rondasEmpates p; listaRondas := listaRondas p |}.

(** ** The script *)

(** The object literal of lines 17-23 and 88-94. *)
Definition objetoEstadisticas (rondas usuario computadora empates : Z)
    (historial : list valor) : valor :=
  VObj [("rondas", VNum rondas); ("usuario", VNum usuario);
        ("computadora", VNum computadora); ("empates", VNum empates);
        ("historial", VArr historial)].

Definition estadisticasIniciales : valor := objetoEstadisticas 0 0 0 0 [].

Definition STORAGE_KEY : string := "juegoPiedraPapelTijeraStat".
Definition STORAGE_THEME_KEY : string := "juegoPiedraPapelTijeraTheme".

(** [o.k] for a property the prototypes do not have: [None] is
    [undefined], or a read on [null]. *)
Definition campo (k : string) (o : valor) : option valor :=
  match o with
  | VObj l => buscar k l
  | _ => None
  end.

(** [o.k = v] on an object. *)
Definition asigna (k : string) (v : valor) (o : valor) : option valor :=
  match o with
  | VObj l => Some (VObj (poner k v l))
  | _ => None
  end.

(** [o.k++] on an object whose property [k] holds a number. *)
Definition masMas (k : string) (o : valor) : option valor :=
  match campo k o with
  | Some (VNum n) => asigna k (VNum (n + 1)) o
  | _ => None
  end.

Definition cargarEstadisticas (w : Mundo) : option Mundo :=
  match localStorage w !! STORAGE_KEY with
  | Some datosGuardados =>
      if String.eqb datosGuardados "" then Some w
      else e ← JSON_parse datosGuardados; Some (conEstadisticas e w)
  | None => Some w
  end.

Definition guardarEstadisticas (w : Mundo) : Mundo :=
  conAlmacen
    (<[STORAGE_KEY := JSON_stringify (estadisticas w)]> (localStorage w)) w.

(** The text a counter node shows, for a counter that is a number. *)
Definition textoNumero (v : option valor) : option string :=
  match v with
  | Some (VNum n) => Some (Texto.cadena (Texto.cifras n))
  | _ => None
  end.

Definition textoCadena (v : option valor) : option string :=
  match v with
  | Some (VStr s) => Some s
  | _ => None
  end.

(** Code units above 127 in the texts of the script. *)
Definition u_aguda : ascii := "250"%char.
Definition i_aguda : ascii := "237"%char.
Definition exclamacion : ascii := "161"%char.

(** One [li] of the history list: class name and text. *)
Definition elementoLista (item : valor) : option (string * string) :=
  usuario ← textoCadena (campo "usuario" item);
  computadora ← textoCadena (campo "computadora" item);
  resultado ← textoCadena (campo "resultado" item);
  let color := "text-gray-800 dark:text-gray-100" in
  let color :=
    if String.eqb resultado "Ganaste" then "text-green-500 font-mono" else color in
  let color :=
    if String.eqb resultado "Perdiste" then "text-red-500 font-mono" else color in
  Some ("p-2 bg-gray-100 dark:bg-gray-700 rounded " +:+ color,
        String "T"%char (String u_aguda " elegiste ") +:+ usuario
          +:+ " vs computadora eligio " +:+ computadora
          +:+ " | Resultado: " +:+ resultado).

Definition actualizarUI (w : Mundo) : option Mundo :=
  let e := estadisticas w in
  rondas ← textoNumero (campo "rondas" e);
  usuario ← textoNumero (campo "usuario" e);
  computadora ← textoNumero (campo "computadora" e);
  empates ← textoNumero (campo "empates" e);
  match campo "historial" e with
  | Some (VArr historial) =>
      lista ← mapM elementoLista historial;
      Some (conPantalla
              {| resultadoPartida := resultadoPartida (pantalla w);
                 rondasJugadas := rondas; ganadasUsuario := usuario;
                 ganadasComput := computadora; rondasEmpates := empates;
                 listaRondas := lista |} w)
  | _ => None
  end.

(** The text of lines 96-97. *)
Definition mensajeReinicio : string :=
  "Estad" +:+ String i_aguda "sticas reiniciadas "
    +:+ String exclamacion "Comienza de nuevo!".

Definition reiniciarResultados (w : Mundo) : option Mundo :=
  let w1 := conEstadisticas estadisticasIniciales w in
  let w2 := conPantalla (conResultado mensajeReinicio (pantalla w1)) w1 in
  actualizarUI (guardarEstadisticas w2).

Definition opciones : list string := ["piedra"; "papel"; "tijera"].

(** The three branches of the conditional of lines 116-132. *)
Inductive Rama : Type := Empate | Ganaste | Perdiste.

Definition rama (elegirUsuario elegirComputadora : string) : Rama :=
  if String.eqb elegirUsuario elegirComputadora then Empate
  else if (String.eqb elegirUsuario "piedra" && String.eqb elegirComputadora "tijera")
       || (String.eqb elegirUsuario "papel" && String.eqb elegirComputadora "piedra")
       || (String.eqb elegirUsuario "tijera" && String.eqb elegirComputadora "papel")
  then Ganaste
  else Perdiste.

Definition resultadoTexto (r : Rama) : string :=
  match r with
  | Empate => String exclamacion "Empate!"
  | Ganaste => String exclamacion "Ganaste la ronda!"
  | Perdiste => String exclamacion "Perdiste la ronda!"
  end.

Definition resultadoTipo (r : Rama) : string :=
  match r with
  | Empate => "Empate"
  | Ganaste => "Ganaste"
  | Perdiste => "Perdiste"
  end.

(** The counter each branch increments. *)
Definition contador (r : Rama) : string :=
  match r with
  | Empate => "empates"
  | Ganaste => "usuario"
  | Perdiste => "computadora"
  end.

(** The object pushed on the history (lines 142-146). *)
Definition objetoRonda (usuario computadora resultado : string) : valor :=
  VObj [("usuario", VStr usuario); ("computadora", VStr computadora);
        ("resultado", VStr resultado)].

(** [azar] is [Math.floor(Math.random() * 3)]. *)
Definition jugarRonda (elegirUsuario : string) (azar : nat) (w : Mundo)
  : option Mundo :=
  elegirComputadora ← opciones !! azar;
  let r := rama elegirUsuario elegirComputadora in
  e1 ← masMas (contador r) (estadisticas w);
  e2 ← masMas "rondas" e1;
  let mensaje :=
    resultadoTexto r +:+ " (T" +:+ String u_aguda ": "
      +:+ elegirUsuario +:+ " vs Comp: " +:+ elegirComputadora +:+ ")" in
  match campo "historial" e2 with
  | Some (VArr historial) =>
      let h1 := objetoRonda elegirUsuario elegirComputadora (resultadoTipo r)
                  :: historial in
      let h2 := if (5 <? length h1)%nat then removelast h1 else h1 in
      e3 ← asigna "historial" (VArr h2) e2;
      actualizarUI
        (guardarEstadisticas
           (conPantalla (conResultado mensaje (pantalla w))
              (conEstadisticas e3 w)))
  | _ => None
  end.

Definition cuerpoOscuro : Cuerpo :=
  {| oscuro := true; backgroundColor := "#111827"; color := "#f9fafb" |}.

Definition cuerpoClaro : Cuerpo :=
  {| oscuro := false; backgroundColor := "#f3f4f6"; color := "#111827" |}.

(** Lines 179-189 and 212-222: the label names the other mode. *)
Definition rotula (w : Mundo) : Mundo :=
  conEtiqueta
    ((fun _ => if oscuro (body w) then "Cambiar a modo claro"
               else "Cambiar a modo oscuro") <$> etiquetaModo w) w.

(** [prefiereOscuro] is
    [window.matchMedia("(prefers-color-scheme: dark)").matches]. *)
Definition cargarModoOscuro (prefiereOscuro : bool) (w : Mundo) : Mundo :=
  let temaOscuro := localStorage w !! STORAGE_THEME_KEY in
  let esDark :=
    match temaOscuro with Some t => String.eqb t "dark" | None => false end in
  let vacio :=
    match temaOscuro with Some t => String.eqb t "" | None => true end in
  rotula
    (conCuerpo (if esDark || (vacio && prefiereOscuro)
                then cuerpoOscuro else cuerpoClaro) w).

Definition toggleModoOscuro (w : Mundo) : Mundo :=
  rotula
    (if oscuro (body w)
     then conAlmacen (<[STORAGE_THEME_KEY := "light"]> (localStorage w))
            (conCuerpo cuerpoClaro w)
     else conAlmacen (<[STORAGE_THEME_KEY := "dark"]> (localStorage w))
            (conCuerpo cuerpoOscuro w)).

Definition iniciarJuego (prefiereOscuro : bool) (w : Mundo) : option Mundo :=
  w1 ← cargarEstadisticas w;
  w2 ← actualizarUI w1;
  Some (cargarModoOscuro prefiereOscuro w2).

(** The page as the script finds it when it is loaded: its global is the
    literal of lines 17-23. *)
Definition alCargar (almacen : gmap string string) (b : Cuerpo)
    (etiqueta : option string) (p : Pantalla) : Mundo :=
  {| estadisticas := estadisticasIniciales; localStorage := almacen;
     body := b; etiquetaModo := etiqueta; pantalla := p |}.

(** * Vocabulary of the statements *)

(** ** Values and statistics *)

(** A value is canonical when the property lists of its objects are what
    a JS object can hold: no name twice, no name made of digits only. *)
Unset Elimination Schemes.
Inductive canonico : valor -> Prop :=
| can_null : canonico VNull
| can_bool b : canonico (VBool b)
| can_num n : canonico (VNum n)
| can_str s : canonico (VStr s)
| can_arr l : Forall canonico l -> canonico (VArr l)
| can_obj l :
    NoDup l.*1 ->
    Forall (fun p => Lector.esIndice (Texto.letras p.1) = false /\ canonico p.2) l ->
    canonico (VObj l).
Set Elimination Schemes.

Definition esRonda (v : valor) : Prop :=
  exists usuario computadora resultado,
    v = objetoRonda usuario computadora resultado.

(** The statistics object with its invariants: the outcome counters are
    not negative and add up to the rounds, and the history holds at most
    five round objects. *)
Definition formada (e : valor) : Prop :=
  exists rondas usuario computadora empates historial,
    e = objetoEstadisticas rondas usuario computadora empates historial
    /\ usuario + computadora + empates = rondas
    /\ (0 <= usuario /\ 0 <= computadora /\ 0 <= empates)
    /\ Forall esRonda historial
    /\ (length historial <= 5)%nat.

(** The counter [k] of a statistics object. *)
Definition numero (k : string) (e : valor) : option Z :=
  match campo k e with
  | Some (VNum n) => Some n
  | _ => None
  end.

(** Rounds played, user wins, computer wins and draws. *)
Definition marcador (e : valor) : option (Z * Z * Z * Z) :=
  rondas ← numero "rondas" e;
  usuario ← numero "usuario" e;
  computadora ← numero "computadora" e;
  empates ← numero "empates" e;
  Some (rondas, usuario, computadora, empates).

Definition historial (e : valor) : option (list valor) :=
  match campo "historial" e with
  | Some (VArr h) => Some h
  | _ => None
  end.

(** The statistics after a round that took branch [ra] and left the
    history [h]. *)
Definition trasRonda (ra : Rama) (rondas usuario computadora empates : Z)
    (h : list valor) : valor :=
  match ra with
  | Empate => objetoEstadisticas (rondas + 1) usuario computadora (empates + 1) h
  | Ganaste => objetoEstadisticas (rondas + 1) (usuario + 1) computadora empates h
  | Perdiste => objetoEstadisticas (rondas + 1) usuario (computadora + 1) empates h
  end.

(** The history after a new record went in front. *)
Definition recorta (h1 : list valor) : list valor :=
  if (5 <? length h1)%nat then removelast h1 else h1.

(** Several rounds in a row: the user's choice and the computer's draw of
    each. *)
Fixpoint jugarRondas (rs : list (string * nat)) (w : Mundo) : option Mundo :=
  match rs with
  | [] => Some w
  | (elegirUsuario, azar) :: rs' =>
      w' ← jugarRonda elegirUsuario azar w; jugarRondas rs' w'
  end.

(** The world a reset leaves. *)
Definition trasReinicio (w : Mundo) : Mundo :=
  {| estadisticas := estadisticasIniciales;
     localStorage :=
       <[STORAGE_KEY := JSON_stringify estadisticasIniciales]> (localStorage w);
     body := body w;
     etiquetaModo := etiquetaModo w;
     pantalla :=
       {| resultadoPartida := mensajeReinicio; rondasJugadas := "0";
          ganadasUsuario := "0"; ganadasComput := "0"; rondasEmpates := "0";
          listaRondas := [] |} |}.

(** ** The outcome rule *)

(** The moves and outcomes of the specification, with the tokens that
    stand for them in the script and in storage. *)
Inductive Move : Type := Rock | Paper | Scissors.
Inductive Outcome : Type := Win | Loss | Draw.

Definition token (m : Move) : string :=
  match m with
  | Rock => "piedra"
  | Paper => "papel"
  | Scissors => "tijera"
  end.

(** The place of a move in [opciones]. *)
Definition indice (m : Move) : nat :=
  match m with
  | Rock => 0
  | Paper => 1
  | Scissors => 2
  end.

Definition outcome (r : Rama) : Outcome :=
  match r with
  | Ganaste => Win
  | Perdiste => Loss
  | Empate => Draw
  end.

(** The rule in the words of the specification: Rock beats Scissors,
    Paper beats Rock, Scissors beats Paper. *)
Definition beats (a b : Move) : bool :=
  match a, b with
  | Rock, Scissors | Paper, Rock | Scissors, Paper => true
  | _, _ => false
  end.

Definition sameMove (a b : Move) : bool :=
  match a, b with
  | Rock, Rock | Paper, Paper | Scissors, Scissors => true
  | _, _ => false
  end.

Definition decideOutcome (userMove computerMove : Move) : Outcome :=
  if sameMove userMove computerMove then Draw
  else if beats userMove computerMove then Win
  else Loss.

(** The token of an outcome in a history record. *)
Definition tokenOutcome (o : Outcome) : string :=
  match o with
  | Win => "Ganaste"
  | Loss => "Perdiste"
  | Draw => "Empate"
  end.

(** The counters after one round with outcome [o] on fresh statistics. *)
Definition marcadorDe (o : Outcome) : Z * Z * Z * Z :=
  match o with
  | Win => (1, 1, 0, 0)
  | Loss => (1, 0, 1, 0)
  | Draw => (1, 0, 0, 1)
  end.

(** ** The theme and the first load *)

Inductive Tema : Type := Light | Dark.

(** The token of a theme in the theme slot. *)
Definition tokenTema (t : Tema) : string :=
  match t with
  | Light => "light"
  | Dark => "dark"
  end.

Definition otroTema (t : Tema) : Tema :=
  match t with
  | Light => Dark
  | Dark => Light
  end.

(** The look of the body in a theme. *)
Definition cuerpoDe (t : Tema) : Cuerpo :=
  match t with
  | Light => cuerpoClaro
  | Dark => cuerpoOscuro
  end.

(** The order of resolution in the words of the specification: the
    stored preference when there is one, else the ambient preference,
    else Light. *)
Definition resolucion (guardado : option Tema) (ambienteOscuro : bool) : Tema :=
  match guardado with
  | Some t => t
  | None => if ambienteOscuro then Dark else Light
  end.




(** The three texts of a history record, read property by property as
    line 77 reads them. *)
Definition leeRonda (item : valor) : option (string * string * string) :=
  match campo "usuario" item, campo "computadora" item,
        campo "resultado" item with
  | Some (VStr usuario), Some (VStr computadora), Some (VStr resultado) =>
      Some (usuario, computadora, resultado)
  | _, _, _ => None
  end.

(** ** Reachable states *)

(** The worlds a browser can be in: a first visit with no statistics
    stored, then rounds, resets, theme toggles, and reloads of the page
    over the storage left behind. *)
Inductive alcanzable : Mundo -> Prop :=
| alc_visita almacen b etiqueta p prefiere w :
    almacen !! STORAGE_KEY = None ->
    iniciarJuego prefiere (alCargar almacen b etiqueta p) = Some w ->
    alcanzable w
| alc_ronda w elegirUsuario azar w' :
    alcanzable w -> (azar < 3)%nat ->
    jugarRonda elegirUsuario azar w = Some w' ->
    alcanzable w'
| alc_reinicio w w' :
    alcanzable w -> reiniciarResultados w = Some w' -> alcanzable w'
| alc_toggle w :
    alcanzable w -> alcanzable (toggleModoOscuro w)
| alc_recarga w b etiqueta p prefiere w' :
    alcanzable w ->
    iniciarJuego prefiere (alCargar (localStorage w) b etiqueta p) = Some w' ->
    alcanzable w'.

(** What every reachable world satisfies: the statistics are well formed,
    and the statistics slot holds their text, or holds nothing while they
    are still the all-zero literal. *)
Definition coherente (w : Mundo) : Prop :=
  formada (estadisticas w)
  /\ ((localStorage w !! STORAGE_KEY = None
       /\ estadisticas w = estadisticasIniciales)
      \/ localStorage w !! STORAGE_KEY = Some (JSON_stringify (estadisticas w))).

(** ** Sample pages *)

(** A page on a first visit: nothing stored, nothing drawn yet. *)
Definition pantallaVacia : Pantalla :=
  {| resultadoPartida := ""; rondasJugadas := "0"; ganadasUsuario := "0";
     ganadasComput := "0"; rondasEmpates := "0"; listaRondas := [] |}.

Definition paginaNueva : Mundo :=
  alCargar ∅ {| oscuro := false; backgroundColor := ""; color := "" |}
    (Some "Cambiar a modo oscuro") pantallaVacia.

(** The same page after [iniciarJuego] where the system prefers light. *)
Definition paginaIniciada : Mundo :=
  {| estadisticas := estadisticasIniciales; localStorage := ∅;
     body := cuerpoClaro; etiquetaModo := Some "Cambiar a modo oscuro";
     pantalla := pantallaVacia |}.

(** Five rounds played on the first page, and the page they leave. *)
Definition cincoRondas : list (string * nat) :=
  [("piedra", 2%nat); ("papel", 1%nat); ("tijera", 0%nat); ("lagarto", 1%nat);
   ("papel", 0%nat)].

Definition paginaLlena : Mundo :=
  default paginaIniciada (jugarRondas cincoRondas paginaIniciada).



(** A text with each apostrophe turned into a double quote, to write JSON
    texts in examples. *)
Definition conComillas (s : string) : string :=
  Texto.cadena
    (map (fun c => if Ascii.eqb c "'" then "034"%char else c) (Texto.letras s)).

(** ** Sequences of rounds, and what is drawn *)

(** The record a round leaves in the history: the user's choice, the
    computer's move at the drawn place, and the branch they take. *)
Definition registro (x : string * nat) : option valor :=
  comp ← opciones !! x.2;
  Some (objetoRonda x.1 comp (resultadoTipo (rama x.1 comp))).

Definition mismaRama (a b : Rama) : bool :=
  match a, b with
  | Empate, Empate | Ganaste, Ganaste | Perdiste, Perdiste => true
  | _, _ => false
  end.

(** Whether a round takes the branch [ra]. *)
Definition tomaRama (ra : Rama) (x : string * nat) : bool :=
  match opciones !! x.2 with
  | Some comp => mismaRama (rama x.1 comp) ra
  | None => false
  end.

(** How many rounds of a sequence take the branch [ra]. *)
Fixpoint cuentaRama (ra : Rama) (rs : list (string * nat)) : Z :=
  match rs with
  | [] => 0
  | x :: rs' => (if tomaRama ra x then 1 else 0) + cuentaRama ra rs'
  end.

(** A history record that a round can have left: the computer's move is
    one of the three, and the result is the one of the two moves. *)
Definition esJugada (v : valor) : Prop :=
  exists usuario comp,
    comp ∈ opciones
    /\ v = objetoRonda usuario comp (resultadoTipo (rama usuario comp)).

(** The class name of a history line, by the branch of its round. *)
Definition claseDe (ra : Rama) : string :=
  "p-2 bg-gray-100 dark:bg-gray-700 rounded "
    +:+ match ra with
        | Ganaste => "text-green-500 font-mono"
        | Perdiste => "text-red-500 font-mono"
        | Empate => "text-gray-800 dark:text-gray-100"
        end.

(** The label of the toggle in each look of the body. *)
Definition etiquetaDe (esOscuro : bool) : string :=
  if esOscuro then "Cambiar a modo claro" else "Cambiar a modo oscuro".

(** A page loaded over slots that both hold the empty text. *)
Definition paginaConVacios : Mundo :=
  alCargar (<[STORAGE_KEY := ""]> (<[STORAGE_THEME_KEY := ""]> ∅))
    {| oscuro := false; backgroundColor := ""; color := "" |}
    (Some "Cambiar a modo oscuro") pantallaVacia.

(** A page loaded over a theme slot that holds a text the script never
    writes. *)
Definition paginaConOtroTema : Mundo :=
  alCargar (<[STORAGE_THEME_KEY := "DARK"]> ∅) cuerpoClaro None pantallaVacia.

(** The first page after one round of piedra against tijera. *)
Definition paginaTrasRonda : Mundo :=
  default paginaIniciada (jugarRonda "piedra" 2 paginaIniciada).

(** A page loaded again, with a system that prefers light, after a toggle
    on the first page. *)
Definition paginaTrasToggle : Mundo :=
  default paginaIniciada
    (iniciarJuego false
       (alCargar (localStorage (toggleModoOscuro paginaIniciada))
          cuerpoClaro None pantallaVacia)).

(** Six rounds: the five of [cincoRondas] and one more. *)
Definition seisRondas : list (string * nat) :=
  cincoRondas ++ [("tijera", 2%nat)].

(** * Properties *)

(** ** The model on concrete inputs *)

Example stringify_iniciales :
  JSON_stringify estadisticasIniciales
  = conComillas
      "{'rondas':0,'usuario':0,'computadora':0,'empates':0,'historial':[]}".
Proof. reflexivity. Qed.

Example parse_con_blancos_y_repetidos :
  JSON_parse (conComillas " { 'a' : [1, 2 ,3 ], 'a': 'x\u0041\n' , 'b':-70}  ")
  = Some (VObj [("a", VStr (String "x" (String "A" (String "010" ""))));
                ("b", VNum (-70))]).
Proof. reflexivity. Qed.

Example parse_rechaza :
  JSON_parse "" = None /\ JSON_parse "[01]" = None /\ JSON_parse "[1,]" = None
  /\ JSON_parse "[1.5]" = None /\ JSON_parse "nul" = None
  /\ JSON_parse "-0" = None /\ JSON_parse (conComillas "{'1':2}") = None.
Proof. repeat split; reflexivity. Qed.

(** Piedra against a forced tijera on the first page. *)
Example piedra_contra_tijera :
  exists w,
    jugarRonda "piedra" 2 paginaIniciada = Some w
    /\ estadisticas w
       = objetoEstadisticas 1 1 0 0 [objetoRonda "piedra" "tijera" "Ganaste"]
    /\ localStorage w !! STORAGE_KEY
       = Some (conComillas
                 "{'rondas':1,'usuario':1,'computadora':0,'empates':0,'historial':[{'usuario':'piedra','computadora':'tijera','resultado':'Ganaste'}]}")
    /\ rondasJugadas (pantalla w) = "1"
    /\ ganadasUsuario (pantalla w) = "1".
Proof. eexists. split; [vm_compute; reflexivity|]. repeat split; reflexivity. Qed.

(** A first visit where the system prefers dark. *)
Example primera_visita_oscura :
  exists w,
    iniciarJuego true paginaNueva = Some w
    /\ estadisticas w = estadisticasIniciales
    /\ body w = cuerpoOscuro
    /\ etiquetaModo w = Some "Cambiar a modo claro"
    /\ listaRondas (pantalla w) = [].
Proof. eexists. split; [vm_compute; reflexivity|]. repeat split; reflexivity. Qed.

(** The sixth round pushes the first one out. *)
Example sexta_ronda :
  exists w,
    jugarRonda "tijera" 2 paginaLlena = Some w
    /\ marcador (estadisticas w) = Some (6, 2, 2, 2)
    /\ historial (estadisticas w)
       = Some [objetoRonda "tijera" "tijera" "Empate";
               objetoRonda "papel" "piedra" "Ganaste";
               objetoRonda "lagarto" "papel" "Perdiste";
               objetoRonda "tijera" "piedra" "Perdiste";
               objetoRonda "papel" "papel" "Empate"].
Proof. eexists. split; [vm_compute; reflexivity|]. split; reflexivity. Qed.

(** ** Values *)

Lemma buscar_poner_eq k v l : buscar k (poner k v l) = Some v.
Proof.
  induction l as [|[k' v'] l IH]; simpl.
  - by rewrite String.eqb_refl.
  - destruct (String.eqb k k') eqn:E; simpl; rewrite ?String.eqb_refl, ?E; done.
Qed.

Lemma buscar_poner_ne k k' v l : k <> k' -> buscar k' (poner k v l) = buscar k' l.
Proof.
  intros Hne. induction l as [|[k1 v1] l IH]; simpl.
  - apply not_eq_sym in Hne. apply String.eqb_neq in Hne. by rewrite Hne.
  - destruct (String.eqb k k1) eqn:E; simpl.
    + apply String.eqb_eq in E. subst k1.
      apply not_eq_sym in Hne. apply String.eqb_neq in Hne. by rewrite Hne.
    + by rewrite IH.
Qed.

Lemma poner_nuevo k v l : k ∉ l.*1 -> poner k v l = l ++ [(k, v)].
Proof.
  induction l as [|[k' v'] l IH]; simpl; [done|].
  intros Hn. apply not_elem_of_cons in Hn as [Hne Hn].
  apply String.eqb_neq in Hne. rewrite Hne. by rewrite IH.
Qed.

Lemma objetoDe_sin_repetir ms : NoDup ms.*1 -> Lector.objetoDe ms = ms.
Proof.
  unfold Lector.objetoDe.
  enough (forall acc, NoDup (acc ++ ms).*1 ->
            fold_left (fun l m => poner m.1 m.2 l) ms acc = acc ++ ms) as H.
  { intros Hd. by apply (H []). }
  induction ms as [|[k v] ms IH]; intros acc Hd; simpl.
  - by rewrite app_nil_r.
  - rewrite poner_nuevo.
    + rewrite IH; rewrite <- app_assoc; done.
    + rewrite fmap_app in Hd. apply NoDup_app in Hd as (_ & Hd & _).
      intros Hin. apply (Hd k Hin). simpl. left.
Qed.

(** ** Numbers: reading back the decimal text *)

Module LectorOk.

Import Texto Lector.
Local Open Scope char_scope.

Lemma delimita_digitos r : delimita r = true -> leeDigitos r = (Nil, r).
Proof.
  destruct r as [|c r]; [done|].
  destruct c as [[] [] [] [] [] [] [] []]; simpl; done.
Qed.

Lemma delimita_sigue r : delimita r = true -> sigueNumero r = false.
Proof.
  destruct r as [|c r]; [done|].
  destruct c as [[] [] [] [] [] [] [] []]; simpl; done.
Qed.

Lemma leeDigitos_digitos d r :
  delimita r = true -> leeDigitos (digitos d ++ r) = (d, r).
Proof.
  intros Hr. induction d; simpl; rewrite ?IHd; auto using delimita_digitos.
Qed.

Lemma parteEntera_unorm d : d <> Nil -> unorm d = d -> parteEntera d = true.
Proof.
  destruct d as [|d'| | | | | | | | |]; try done.
  intros _ H. rewrite unorm_D0 in H. unfold unorm in H.
  destruct (nzhead d') eqn:E; try discriminate.
  - injection H as <-. reflexivity.
  - exfalso. by apply (nzhead_nonzero d' u).
Qed.

Lemma parteEntera_pos p : parteEntera (Pos.to_uint p) = true.
Proof.
  apply parteEntera_unorm.
  - apply DecimalPos.Unsigned.to_uint_nonnil.
  - rewrite <- DecimalPos.Unsigned.to_of.
    by rewrite DecimalPos.Unsigned.of_to.
Qed.

Lemma menosCero_pos p : menosCero true (Pos.to_uint p) = false.
Proof.
  pose proof (DecimalPos.Unsigned.of_to p) as H.
  destruct (Pos.to_uint p) as [|d| | | | | | | | |]; try done.
  destruct d; try done.
Qed.

Lemma leeNumero_cifras n r :
  delimita r = true -> leeNumero (cifras n ++ r) = Some (n, r).
Proof.
  intros Hr. unfold leeNumero, cifras.
  pose proof (DecimalZ.of_to n) as Hn.
  destruct (Z.to_int n) as [d|d] eqn:E.
  - assert (parteEntera d = true) as Hd.
    { destruct n; simpl in E; inversion E; auto using parteEntera_pos. }
    assert (match digitos d ++ r with "-" :: r0 => (true, r0) | _ => (false, digitos d ++ r) end
            = (false, digitos d ++ r)) as ->.
    { destruct d; try done. }
    rewrite leeDigitos_digitos, Hd, delimita_sigue, Hn; done.
  - assert (parteEntera d = true) as Hd.
    { destruct n; simpl in E; inversion E; auto using parteEntera_pos. }
    assert (menosCero true d = false) as Hz.
    { destruct n; simpl in E; inversion E; apply menosCero_pos. }
    cbn -[Z.of_int leeDigitos menosCero].
    rewrite leeDigitos_digitos, Hd, delimita_sigue, Hz, Hn; done.
Qed.

Lemma entera_to_int n :
  parteEntera (match Z.to_int n with Pos d | Neg d => d end) = true.
Proof. destruct n; simpl; auto using parteEntera_pos. Qed.

Lemma cifras_inicio n :
  exists c t, cifras n = c :: t /\ esInicioNumero c = true.
Proof.
  unfold cifras. pose proof (entera_to_int n) as H.
  destruct (Z.to_int n) as [d|d]; [|by eexists _, _].
  destruct d; try discriminate; by eexists _, _.
Qed.

Lemma inicio_numero c :
  esInicioNumero c = true -> esBlanco c = false /\ Ascii.eqb c "]" = false.
Proof. destruct c as [[] [] [] [] [] [] [] []]; simpl; done. Qed.

(** ** Strings: reading back the quoted text *)

Lemma leeCadena_escapa c t :
  leeCadena (escapa c ++ t) = '(k, r) ← leeCadena t; Some (c :: k, r).
Proof. destruct c as [[] [] [] [] [] [] [] []]; reflexivity. Qed.

Lemma leeCadena_comillas s r :
  leeCadena (flat_map escapa s ++ "034" :: r) = Some (s, r).
Proof.
  induction s as [|c s IH]; [done|].
  simpl. rewrite <- app_assoc, leeCadena_escapa, IH. done.
Qed.

(** ** Values: reading back the written text *)

Lemma escribe_inicio v :
  exists c t, escribe v = c :: t /\ esBlanco c = false /\ Ascii.eqb c "]" = false.
Proof.
  destruct v as [|[]|n| | |]; try by eexists _, _.
  destruct (cifras_inicio n) as (c & t & E & Hc).
  exists c, t. split; [done|]. by apply inicio_numero.
Qed.

Lemma saltaBlancos_escribe v r : saltaBlancos (escribe v ++ r) = escribe v ++ r.
Proof.
  destruct (escribe_inicio v) as (c & t & -> & Hb & _). simpl. by rewrite Hb.
Qed.

Lemma cierra_escribe v r : cierra "]" (escribe v ++ r) = None.
Proof.
  unfold cierra. rewrite saltaBlancos_escribe.
  destruct (escribe_inicio v) as (c & t & -> & _ & Hc). simpl. by rewrite Hc.
Qed.

Lemma parseElementos_escribe x l n r :
  Forall legible (x :: l) ->
  (pesoElementos (x :: l) <= n)%nat -> delimita r = true ->
  parseElementos n (unir "," (map escribe (x :: l)) ++ "]" :: r)
  = Some (x :: l, r).
Proof.
  revert x n. induction l as [|y l IH]; intros x n Hl Hn Hr.
  - apply Forall_cons in Hl as [Hx _].
    destruct n as [|n]; simpl in Hn; [lia|].
    simpl. rewrite Hx; [done|lia|done].
  - apply Forall_cons in Hl as [Hx Hl].
    destruct n as [|n]; [simpl in Hn; lia|].
    change (pesoElementos (x :: y :: l))
      with (S (peso x + pesoElementos (y :: l))) in Hn.
    change (unir "," (map escribe (x :: y :: l)))
      with (escribe x ++ "," :: unir "," (map escribe (y :: l))).
    rewrite <- app_assoc.
    cbn [parseElementos]. rewrite Hx; [|lia|done].
    cbn -[parseElementos unir map]. rewrite IH; [done|done|lia|done].
Qed.

Lemma parseMiembros_S n s :
  parseMiembros (S n) s =
  match saltaBlancos s with
  | "034" :: r =>
      '(k, r1) ← leeCadena r;
      match saltaBlancos r1 with
      | ":" :: r2 =>
          '(v, r3) ← parseValor n r2;
          match saltaBlancos r3 with
          | "," :: r4 =>
              '(l, r5) ← parseMiembros n r4; Some ((cadena k, v) :: l, r5)
          | "}" :: r4 => Some ([(cadena k, v)], r4)
          | _ => None
          end
      | _ => None
      end
  | _ => None
  end.
Proof. reflexivity. Qed.

Lemma miembro_llave n k x t :
  legible x -> (peso x <= n)%nat ->
  parseMiembros (S n) ((comillas (letras k) ++ ":" :: escribe x) ++ "}" :: t)
  = Some ([(k, x)], t).
Proof.
  intros Hx Hn.
  cbn -[parseValor leeCadena]. rewrite <- !app_assoc. cbn [app].
  rewrite leeCadena_comillas.
  cbn -[parseValor]. rewrite Hx; [|lia|done].
  cbn. unfold cadena, letras. by rewrite string_of_list_ascii_of_string.
Qed.

Lemma miembro_coma n k x t :
  legible x -> (peso x <= n)%nat ->
  parseMiembros (S n) ((comillas (letras k) ++ ":" :: escribe x) ++ "," :: t)
  = '(l, r) ← parseMiembros n t; Some ((k, x) :: l, r).
Proof.
  intros Hx Hn. rewrite parseMiembros_S.
  cbn -[parseValor parseMiembros leeCadena]. rewrite <- !app_assoc. cbn [app].
  rewrite leeCadena_comillas.
  cbn -[parseValor parseMiembros]. rewrite Hx; [|lia|done].
  cbn -[parseMiembros]. unfold cadena, letras.
  by rewrite string_of_list_ascii_of_string.
Qed.

Lemma parseMiembros_escribe p l n r :
  Forall (fun q => legible q.2) (p :: l) ->
  (pesoMiembros (p :: l) <= n)%nat -> delimita r = true ->
  parseMiembros n
    (unir "," (map (fun q => comillas (letras q.1) ++ ":" :: escribe q.2) (p :: l))
       ++ "}" :: r)
  = Some (p :: l, r).
Proof.
  set (f := fun q : string * valor => comillas (letras q.1) ++ ":" :: escribe q.2).
  revert p n. induction l as [|q l IH]; intros [k x] n Hl Hn Hr.
  - apply Forall_cons in Hl as [Hx _]. simpl in Hx.
    destruct n as [|n]; simpl in Hn; [lia|].
    apply miembro_llave; [done|lia].
  - apply Forall_cons in Hl as [Hx Hl]. simpl in Hx.
    destruct n as [|n]; [simpl in Hn; lia|].
    change (pesoMiembros ((k, x) :: q :: l))
      with (S (peso x + pesoMiembros (q :: l))) in Hn.
    change (unir "," (map f ((k, x) :: q :: l)))
      with (f (k, x) ++ "," :: unir "," (map f (q :: l))).
    rewrite <- app_assoc. cbn [app]. unfold f at 1. cbn [fst snd].
    rewrite miembro_coma; [|done|lia].
    rewrite IH; [done|done|lia|done].
Qed.

Lemma existsb_indice l :
  Forall (fun p => esIndice (letras p.1) = false /\ canonico p.2) l ->
  existsb (fun m : string * valor => esIndice (letras m.1)) l = false.
Proof.
  induction 1 as [|p l [Hp _] _ IH]; simpl; [done|]. by rewrite Hp, IH.
Qed.

Lemma legible_canonico v : canonico v -> legible v.
Proof.
  induction v as [|b|z|s|l IH|l IH] using valor_ind; intros Hc n r Hn Hr;
    (destruct n as [|n]; [simpl in Hn; lia|]).
  - reflexivity.
  - by destruct b.
  - destruct (cifras_inicio z) as (c & t & E & Hc').
    destruct (inicio_numero c Hc') as [Hb _].
    cbn -[leeNumero]. rewrite E. cbn -[leeNumero]. rewrite Hb, Hc'.
    change (c :: t ++ r) with ((c :: t) ++ r). rewrite <- E.
    by rewrite leeNumero_cifras.
  - cbn -[leeCadena]. rewrite <- app_assoc. cbn [app].
    rewrite leeCadena_comillas. cbn. unfold cadena, letras.
    by rewrite string_of_list_ascii_of_string.
  - inversion Hc as [| | | |l' Hl|]; subst.
    assert (Forall legible l) as Hleg.
    { clear -IH Hl. induction l; [done|].
      apply Forall_cons in IH as [??]. apply Forall_cons in Hl as [??].
      constructor; auto. }
    destruct l as [|x l].
    + reflexivity.
    + cbn -[parseElementos unir map cierra]. rewrite <- app_assoc. cbn [app].
      replace (cierra "]" (unir "," (map escribe (x :: l)) ++ "]" :: r))
        with (@None (list ascii)).
      2:{ symmetry. destruct l; cbn -[cierra]; rewrite <- ?app_assoc;
          apply cierra_escribe. }
      rewrite parseElementos_escribe; [done|done| |done].
      simpl in Hn. unfold pesoElementos. simpl. lia.
  - inversion Hc as [| | | | |l' Hd Hl]; subst.
    assert (Forall (fun q => legible q.2) l) as Hleg.
    { clear -IH Hl. induction l; [done|].
      apply Forall_cons in IH as [??]. apply Forall_cons in Hl as [[??]?].
      constructor; auto. }
    destruct l as [|p l].
    + reflexivity.
    + set (f := fun q : string * valor => comillas (letras q.1) ++ ":" :: escribe q.2).
      change (escribe (VObj (p :: l)))
        with ("{" :: unir "," (map f (p :: l)) ++ ["}"]).
      cbn -[parseMiembros unir map cierra]. rewrite <- app_assoc. cbn [app].
      replace (cierra "}" (unir "," (map f (p :: l)) ++ "}" :: r))
        with (@None (list ascii)).
      2:{ destruct l; reflexivity. }
      unfold f. rewrite parseMiembros_escribe; [|done| |done].
      * cbn -[existsb objetoDe]. rewrite (existsb_indice _ Hl).
        by rewrite objetoDe_sin_repetir.
      * simpl in Hn. unfold pesoMiembros. simpl. lia.
Qed.

Lemma peso_unir {A} (g : A -> nat) (f : A -> list ascii) sep l :
  Forall (fun a => (g a <= length (f a))%nat) l ->
  (foldr (fun a acc => S (g a + acc)) 0 l <= S (length (unir sep (map f l))))%nat.
Proof.
  induction 1 as [|a l Ha Hl IH]; [simpl; lia|].
  destruct l as [|b l].
  - simpl. lia.
  - change (unir sep (map f (a :: b :: l)))
      with (f a ++ sep :: unir sep (map f (b :: l))).
    rewrite length_app. cbn [foldr length] in *. lia.
Qed.

Lemma peso_longitud v : (peso v <= length (escribe v))%nat.
Proof.
  induction v as [|b|z|s|l IH|l IH] using valor_ind.
  - simpl. lia.
  - destruct b; simpl; lia.
  - destruct (cifras_inicio z) as (c & t & E & _). simpl. rewrite E. simpl. lia.
  - simpl. lia.
  - pose proof (peso_unir peso escribe "," l IH) as H.
    cbn [peso escribe length]. rewrite length_app. simpl. lia.
  - pose proof (peso_unir (fun p => peso p.2)
                  (fun p => comillas (letras p.1) ++ ":" :: escribe p.2) "," l) as H.
    cbn beta in H. cbn [peso escribe length]. rewrite length_app. cbn [length].
    enough (foldr (fun p a => S (peso p.2 + a)) 0 l
            <= S (length (unir "," (map (fun p : string * valor =>
                  comillas (letras p.1) ++ ":" :: escribe p.2) l))))%nat by lia.
    apply H. eapply Forall_impl; [exact IH|].
    intros [k x] Hx. simpl in *. rewrite length_app. simpl. lia.
Qed.

End LectorOk.

(** [JSON.parse] reads back what [JSON.stringify] wrote. *)
Lemma JSON_parse_stringify v :
  canonico v -> JSON_parse (JSON_stringify v) = Some v.
Proof.
  intros Hc. unfold JSON_parse, JSON_stringify, Texto.letras, Texto.cadena.
  rewrite list_ascii_of_string_of_list_ascii.
  pose proof (LectorOk.peso_longitud v) as Hp.
  rewrite <- (app_nil_r (Texto.escribe v)) at 2.
  rewrite (LectorOk.legible_canonico v Hc); [done|lia|done].
Qed.

(** ** Statistics the game produces *)

Lemma canonico_ronda v : esRonda v -> canonico v.
Proof.
  intros (u & c & t & ->). constructor.
  - apply (bool_decide_unpack _). by vm_compute.
  - repeat constructor.
Qed.

Lemma canonico_objetoEstadisticas r u c e h :
  Forall esRonda h -> canonico (objetoEstadisticas r u c e h).
Proof.
  intros Hh. constructor.
  - apply (bool_decide_unpack _). by vm_compute.
  - repeat (apply List.Forall_cons; [split; [reflexivity|]|]);
      [constructor .. | |apply List.Forall_nil].
    apply can_arr. eapply Forall_impl; [exact Hh|]. apply canonico_ronda.
Qed.

Lemma canonico_formada e : formada e -> canonico e.
Proof.
  intros (r & u & c & em & h & -> & _ & _ & Hh & _).
  by apply canonico_objetoEstadisticas.
Qed.

Lemma formada_iniciales : formada estadisticasIniciales.
Proof. exists 0, 0, 0, 0, []. repeat split; simpl; auto; lia. Qed.

Lemma mapM_rondas h :
  Forall esRonda h -> exists l, mapM elementoLista h = Some l.
Proof.
  induction 1 as [|v h (u & c & t & ->) _ [l IH]]; [by eexists|].
  cbn -[elementoLista]. rewrite IH. by eexists.
Qed.

Lemma actualizarUI_forma w r u c e h :
  estadisticas w = objetoEstadisticas r u c e h -> Forall esRonda h ->
  exists p, actualizarUI w = Some (conPantalla p w).
Proof.
  intros He Hh. destruct (mapM_rondas h Hh) as [l Hl].
  unfold actualizarUI. rewrite He. cbn -[mapM Texto.cifras]. rewrite Hl.
  by eexists.
Qed.

Lemma Forall_removelast {A} (P : A -> Prop) l :
  Forall P l -> Forall P (removelast l).
Proof.
  induction 1 as [|x l Hx Hl IH]; [done|].
  destruct l; simpl in *; [constructor|by constructor].
Qed.

Lemma length_removelast {A} (l : list A) :
  length (removelast l) = pred (length l).
Proof.
  induction l as [|x l IH]; [done|]. destruct l; [done|].
  change (removelast (x :: a :: l)) with (x :: removelast (a :: l)).
  simpl in *. rewrite IH. done.
Qed.

Lemma recorta_rondas h : Forall esRonda h -> Forall esRonda (recorta h).
Proof. unfold recorta. case_match; auto using Forall_removelast. Qed.

Lemma recorta_longitud x h :
  (length h <= 5)%nat -> (length (recorta (x :: h)) <= 5)%nat.
Proof.
  intros Hh. unfold recorta. case_match eqn:E.
  - rewrite length_removelast. simpl. lia.
  - apply Nat.ltb_ge in E. done.
Qed.

Lemma masMas_contador ra r u c e h :
  masMas (contador ra) (objetoEstadisticas r u c e h)
  = Some (match ra with
          | Empate => objetoEstadisticas r u c (e + 1) h
          | Ganaste => objetoEstadisticas r (u + 1) c e h
          | Perdiste => objetoEstadisticas r u (c + 1) e h
          end).
Proof. by destruct ra. Qed.

Lemma masMas_rondas r u c e h :
  masMas "rondas" (objetoEstadisticas r u c e h)
  = Some (objetoEstadisticas (r + 1) u c e h).
Proof. reflexivity. Qed.

Lemma campo_historial r u c e h :
  campo "historial" (objetoEstadisticas r u c e h) = Some (VArr h).
Proof. reflexivity. Qed.

Lemma asigna_historial r u c e h h' :
  asigna "historial" (VArr h') (objetoEstadisticas r u c e h)
  = Some (objetoEstadisticas r u c e h').
Proof. reflexivity. Qed.

(** One round on a statistics object of the expected shape. *)
Lemma jugarRonda_paso usuario i comp w r u c e h :
  estadisticas w = objetoEstadisticas r u c e h -> Forall esRonda h ->
  opciones !! i = Some comp ->
  let ra := rama usuario comp in
  let e' := trasRonda ra r u c e
              (recorta (objetoRonda usuario comp (resultadoTipo ra) :: h)) in
  exists w',
    jugarRonda usuario i w = Some w'
    /\ estadisticas w' = e'
    /\ localStorage w' = <[STORAGE_KEY := JSON_stringify e']> (localStorage w)
    /\ body w' = body w
    /\ etiquetaModo w' = etiquetaModo w.
Proof.
  intros He Hh Hi ra e'.
  assert (Forall esRonda
            (recorta (objetoRonda usuario comp (resultadoTipo ra) :: h))) as Hh'.
  { apply recorta_rondas. constructor; [by eexists _, _, _|done]. }
  unfold jugarRonda. rewrite Hi, He. cbn [mbind option_bind]. fold ra.
  set (msg := (_ +:+ _ +:+ _ +:+ _ +:+ _ +:+ _)%string).
  set (nuevo := objetoRonda usuario comp (resultadoTipo ra)) in *.
  assert (exists r1 u1 c1 e1,
            e' = objetoEstadisticas r1 u1 c1 e1 (recorta (nuevo :: h))
            /\ masMas (contador ra) (objetoEstadisticas r u c e h)
                = Some (objetoEstadisticas (r1 - 1) u1 c1 e1 h))
    as (r1 & u1 & c1 & e1 & He' & ->).
  { rewrite masMas_contador. subst e'. clearbody ra.
    destruct ra; eexists (r + 1), _, _, _; (split; [reflexivity|]);
      repeat f_equal; lia. }
  cbn [mbind option_bind]. rewrite masMas_rondas. cbn [mbind option_bind].
  rewrite campo_historial, asigna_historial. cbn [mbind option_bind].
  fold (recorta (nuevo :: h)). replace (r1 - 1 + 1) with r1 by lia.
  rewrite <- He'.
  edestruct (actualizarUI_forma
               (guardarEstadisticas
                  (conPantalla (conResultado msg (pantalla w))
                     (conEstadisticas e' w)))) as [p ->].
  { simpl. exact He'. }
  { done. }
  eexists. split; [reflexivity|]. by simpl.
Qed.

Lemma claves_distintas : STORAGE_KEY <> STORAGE_THEME_KEY.
Proof. discriminate. Qed.

Lemma stringify_no_vacio r u c e h :
  String.eqb (JSON_stringify (objetoEstadisticas r u c e h)) "" = false.
Proof. reflexivity. Qed.

Lemma cargarEstadisticas_ausente w :
  localStorage w !! STORAGE_KEY = None -> cargarEstadisticas w = Some w.
Proof. intros H. unfold cargarEstadisticas. by rewrite H. Qed.

Lemma cargarEstadisticas_guardadas w e :
  formada e ->
  localStorage w !! STORAGE_KEY = Some (JSON_stringify e) ->
  cargarEstadisticas w = Some (conEstadisticas e w).
Proof.
  intros He H. unfold cargarEstadisticas. rewrite H.
  rewrite (JSON_parse_stringify e (canonico_formada e He)).
  destruct He as (r & u & c & em & h & -> & _).
  by rewrite stringify_no_vacio.
Qed.

(** ** Reachable states *)

Lemma actualizarUI_estado w w' :
  actualizarUI w = Some w' ->
  estadisticas w' = estadisticas w /\ localStorage w' = localStorage w
  /\ body w' = body w /\ etiquetaModo w' = etiquetaModo w.
Proof.
  unfold actualizarUI. intros H.
  repeat (match type of H with
          | mbind _ ?o = Some _ => destruct o; simpl in H; [|discriminate]
          | match ?o with _ => _ end = Some _ => destruct o; try discriminate
          end).
  injection H as <-. done.
Qed.

Lemma cargarEstadisticas_almacen w w' :
  cargarEstadisticas w = Some w' -> localStorage w' = localStorage w.
Proof.
  unfold cargarEstadisticas. intros H.
  destruct (localStorage w !! STORAGE_KEY) as [s|]; [|by injection H as <-].
  destruct (String.eqb s ""); [by injection H as <-|].
  destruct (JSON_parse s); simpl in H; [|discriminate]. by injection H as <-.
Qed.

Lemma iniciarJuego_estado prefiere w w' :
  iniciarJuego prefiere w = Some w' ->
  exists w1, cargarEstadisticas w = Some w1
    /\ estadisticas w' = estadisticas w1
    /\ localStorage w' = localStorage w.
Proof.
  unfold iniciarJuego. intros H.
  destruct (cargarEstadisticas w) as [w1|] eqn:E1; simpl in H; [|discriminate].
  destruct (actualizarUI w1) as [w2|] eqn:E2; simpl in H; [|discriminate].
  injection H as <-.
  apply actualizarUI_estado in E2 as (He & Hs & _).
  apply cargarEstadisticas_almacen in E1 as Hs1.
  exists w1. simpl. rewrite He, Hs, Hs1. done.
Qed.

Lemma coherente_recarga prefiere almacen e b etiqueta p w' :
  formada e ->
  (almacen !! STORAGE_KEY = None
   \/ almacen !! STORAGE_KEY = Some (JSON_stringify e)) ->
  iniciarJuego prefiere (alCargar almacen b etiqueta p) = Some w' ->
  coherente w'.
Proof.
  intros He Hs H.
  apply iniciarJuego_estado in H as (w1 & H1 & Hest & Halm).
  simpl in Halm. unfold coherente. rewrite Hest, Halm.
  destruct Hs as [Hs|Hs].
  - rewrite cargarEstadisticas_ausente in H1 by done.
    injection H1 as <-. split; [apply formada_iniciales|by left].
  - rewrite (cargarEstadisticas_guardadas _ e) in H1 by done.
    injection H1 as <-. split; [done|by right].
Qed.

Lemma toggle_estadisticas w :
  estadisticas (toggleModoOscuro w) = estadisticas w.
Proof. unfold toggleModoOscuro. by destruct (oscuro (body w)). Qed.

Lemma toggle_cuerpo w :
  body (toggleModoOscuro w)
  = if oscuro (body w) then cuerpoClaro else cuerpoOscuro.
Proof. unfold toggleModoOscuro. by destruct (oscuro (body w)). Qed.

Lemma toggle_almacen w :
  localStorage (toggleModoOscuro w)
  = <[STORAGE_THEME_KEY := if oscuro (body w) then "light" else "dark"]>
      (localStorage w).
Proof. unfold toggleModoOscuro. by destruct (oscuro (body w)). Qed.

Lemma reiniciarResultados_efecto w :
  reiniciarResultados w = Some (trasReinicio w).
Proof. reflexivity. Qed.

Lemma trasReinicio_dos_veces w : trasReinicio (trasReinicio w) = trasReinicio w.
Proof.
  unfold trasReinicio.
  cbn [localStorage body etiquetaModo]. by rewrite insert_insert_eq.
Qed.

Theorem alcanzable_coherente w : alcanzable w -> coherente w.
Proof.
  induction 1 as [almacen b et p pref w Hs Hw
                 |w usuario azar w' _ [Hf _] Hazar Hw
                 |w w' _ _ Hw
                 |w _ [Hf Hs]
                 |w b et p pref w' _ [Hf Hs] Hw].
  - eapply coherente_recarga; [apply formada_iniciales|by left|exact Hw].
  - destruct Hf as (r & u & c & e & h & He & Hsum & Hpos & Hh & Hlen).
    destruct (lookup_lt_is_Some_2 opciones azar Hazar) as [comp Hc].
    destruct (jugarRonda_paso usuario azar comp w r u c e h He Hh Hc)
      as (w1 & Hw1 & He1 & Hs1 & _).
    rewrite Hw in Hw1. injection Hw1 as <-.
    split.
    + rewrite He1.
      assert (Forall esRonda
                (recorta (objetoRonda usuario comp
                            (resultadoTipo (rama usuario comp)) :: h))) as Hh'.
      { apply recorta_rondas. constructor; [by eexists _, _, _|done]. }
      pose proof (recorta_longitud
                    (objetoRonda usuario comp (resultadoTipo (rama usuario comp)))
                    h Hlen) as Hlen'.
      destruct (rama usuario comp); simpl;
        eexists _, _, _, _, _; (split; [reflexivity|]);
        (split; [lia|]); (split; [lia|]); split; done.
    + right. rewrite Hs1, He1. apply lookup_insert_eq.
  - rewrite reiniciarResultados_efecto in Hw. injection Hw as <-.
    split; [apply formada_iniciales|].
    right. apply lookup_insert_eq.
  - unfold coherente.
    rewrite toggle_estadisticas, toggle_almacen, lookup_insert_ne by discriminate.
    done.
  - eapply coherente_recarga; [exact Hf| |exact Hw].
    destruct Hs as [[Hs _]|Hs]; auto.
Qed.

(** A reload of the page over the storage of a reachable world never
    fails, and brings the statistics back. *)
Lemma recarga_total w b etiqueta p prefiere :
  alcanzable w ->
  exists w',
    iniciarJuego prefiere (alCargar (localStorage w) b etiqueta p) = Some w'
    /\ estadisticas w' = estadisticas w.
Proof.
  intros Hw. destruct (alcanzable_coherente w Hw) as [Hf Hs].
  set (w0 := alCargar (localStorage w) b etiqueta p).
  assert (cargarEstadisticas w0 = Some (conEstadisticas (estadisticas w) w0))
    as Hc.
  { destruct Hs as [[Hs ->]|Hs].
    - by rewrite cargarEstadisticas_ausente.
    - by apply cargarEstadisticas_guardadas. }
  unfold iniciarJuego. rewrite Hc. cbn [mbind option_bind].
  destruct Hf as (r & u & c & e & h & He & _ & _ & Hh & _).
  destruct (actualizarUI_forma (conEstadisticas (estadisticas w) w0) r u c e h)
    as [pa ->]; [by simpl|done|].
  by eexists.
Qed.

(** On load an empty stored text counts as no stored text. *)
Lemma cargarEstadisticas_vacia w :
  localStorage w !! STORAGE_KEY = Some "" -> cargarEstadisticas w = Some w.
Proof. intros H. unfold cargarEstadisticas. by rewrite H. Qed.

(** ** Rounds and counters *)

Lemma marcador_objeto r u c e h :
  marcador (objetoEstadisticas r u c e h) = Some (r, u, c, e).
Proof. reflexivity. Qed.

Lemma marcador_trasRonda ra r u c e h :
  marcador (trasRonda ra r u c e h)
  = Some match ra with
         | Empate => (r + 1, u, c, e + 1)
         | Ganaste => (r + 1, u + 1, c, e)
         | Perdiste => (r + 1, u, c + 1, e)
         end.
Proof. by destruct ra. Qed.

Lemma historial_trasRonda ra r u c e h :
  historial (trasRonda ra r u c e h) = Some h.
Proof. by destruct ra. Qed.

Lemma jugarRondas_forma rs :
  forall w r u c e h,
    estadisticas w = objetoEstadisticas r u c e h -> Forall esRonda h ->
    Forall (fun x : string * nat => (x.2 < 3)%nat) rs ->
    exists w' r' u' c' e' h',
      jugarRondas rs w = Some w'
      /\ estadisticas w' = objetoEstadisticas r' u' c' e' h'
      /\ Forall esRonda h'
      /\ r' = r + Z.of_nat (length rs)
      /\ u' + c' + e' = u + c + e + Z.of_nat (length rs)
      /\ u <= u' /\ c <= c' /\ e <= e'.
Proof.
  induction rs as [|[usuario azar] rs IH]; intros w r u c e h He Hh Hrs.
  - exists w, r, u, c, e, h. simpl. repeat split; auto; lia.
  - apply Forall_cons in Hrs as [Hazar Hrs]. simpl in Hazar.
    destruct (lookup_lt_is_Some_2 opciones azar Hazar) as [comp Hc].
    destruct (jugarRonda_paso usuario azar comp w r u c e h He Hh Hc)
      as (w1 & Hw1 & He1 & _).
    set (h1 := recorta (objetoRonda usuario comp
                          (resultadoTipo (rama usuario comp)) :: h)) in *.
    assert (Forall esRonda h1) as Hh1.
    { apply recorta_rondas. constructor; [by eexists _, _, _|done]. }
    cbn [jugarRondas]. rewrite Hw1. cbn [mbind option_bind].
    destruct (rama usuario comp); simpl in He1;
      destruct (IH w1 _ _ _ _ _ He1 Hh1 Hrs)
        as (w' & r' & u' & c' & e' & h' & Hw' & He' & Hh' & Hr' & Hsum & Hu & Hc' & He'');
      exists w', r', u', c', e', h';
      rewrite ?length_cons, ?Nat2Z.inj_succ; repeat split; try done; lia.
Qed.

(** C1: from the all-zero statistics, after any sequence of rounds the
    three outcome counters are not negative and add up to the number of
    rounds played, which is the length of the sequence; one more round
    adds one to the rounds and one to exactly one of the outcome
    counters. *)
Theorem C1_contadores_suman (w0 : Mundo) (rs : list (string * nat))
    (elegirUsuario : string) (azar : nat) :
  estadisticas w0 = estadisticasIniciales ->
  Forall (fun x : string * nat => (x.2 < 3)%nat) rs ->
  (azar < 3)%nat ->
  exists w w' rondas usuario computadora empates,
    jugarRondas rs w0 = Some w
    /\ marcador (estadisticas w) = Some (rondas, usuario, computadora, empates)
    /\ usuario + computadora + empates = rondas
    /\ (0 <= usuario /\ 0 <= computadora /\ 0 <= empates)
    /\ rondas = Z.of_nat (length rs)
    /\ jugarRonda elegirUsuario azar w = Some w'
    /\ (marcador (estadisticas w')
          = Some (rondas + 1, usuario + 1, computadora, empates)
        \/ marcador (estadisticas w')
          = Some (rondas + 1, usuario, computadora + 1, empates)
        \/ marcador (estadisticas w')
          = Some (rondas + 1, usuario, computadora, empates + 1)).
Proof.
  intros H0 Hrs Hazar.
  destruct (jugarRondas_forma rs w0 0 0 0 0 [] H0 (List.Forall_nil _) Hrs)
    as (w & r & u & c & e & h & Hw & He & Hh & Hr & Hsum & Hu & Hc0 & He0).
  destruct (lookup_lt_is_Some_2 opciones azar Hazar) as [comp Hc].
  destruct (jugarRonda_paso elegirUsuario azar comp w r u c e h He Hh Hc)
    as (w' & Hw' & He' & _).
  exists w, w', r, u, c, e. rewrite He, He', marcador_objeto, marcador_trasRonda.
  repeat split; [done|lia..|done|].
  destruct (rama elegirUsuario comp); auto.
Qed.

(** C2: on a reachable state a round puts its record at index 0 of the
    history; with fewer than five records before, nothing is removed; with
    five before, exactly the last one goes; the history never holds more
    than five. *)
Theorem C2_historial_acotado (w : Mundo) (elegirUsuario : string) (azar : nat) :
  alcanzable w -> (azar < 3)%nat ->
  exists w' comp h h',
    opciones !! azar = Some comp
    /\ jugarRonda elegirUsuario azar w = Some w'
    /\ historial (estadisticas w) = Some h
    /\ historial (estadisticas w') = Some h'
    /\ h' !! 0%nat
       = Some (objetoRonda elegirUsuario comp
                 (resultadoTipo (rama elegirUsuario comp)))
    /\ (length h <= 5)%nat /\ (length h' <= 5)%nat
    /\ (((length h < 5)%nat
         /\ h' = objetoRonda elegirUsuario comp
                   (resultadoTipo (rama elegirUsuario comp)) :: h)
        \/ ((length h = 5)%nat
            /\ exists viejo,
                 objetoRonda elegirUsuario comp
                   (resultadoTipo (rama elegirUsuario comp)) :: h
                 = h' ++ [viejo])).
Proof.
  intros Hw Hazar.
  destruct (alcanzable_coherente w Hw)
    as [(r & u & c & e & h & He & Hsum & Hpos & Hh & Hlen) _].
  destruct (lookup_lt_is_Some_2 opciones azar Hazar) as [comp Hc].
  destruct (jugarRonda_paso elegirUsuario azar comp w r u c e h He Hh Hc)
    as (w' & Hw' & He' & _).
  set (nuevo := objetoRonda elegirUsuario comp
                  (resultadoTipo (rama elegirUsuario comp))) in *.
  exists w', comp, h, (recorta (nuevo :: h)).
  rewrite He, He', historial_trasRonda.
  pose proof (recorta_longitud nuevo h Hlen) as Hlen'.
  repeat split; try done.
  - unfold recorta. case_match; [|done]. by destruct h.
  - unfold recorta. destruct (5 <? length (nuevo :: h))%nat eqn:E.
    + apply Nat.ltb_lt in E. simpl in E. right. split; [lia|].
      exists (List.last (nuevo :: h) nuevo).
      by apply app_removelast_last.
    + apply Nat.ltb_ge in E. simpl in E. left. split; [lia|done].
Qed.

(** ** The outcome rule *)

(** C3: for every user move and every computer draw the branch the
    script takes is the outcome of the rule: a draw on equal moves, a win
    when the user's move beats the computer's, a loss otherwise; Rock
    against Scissors wins, Rock against Paper loses, Paper against Paper
    draws.  A round played on the first page records that outcome and
    counts it. *)
Theorem C3_regla_de_resultado (userMove computerMove : Move) :
  opciones !! indice computerMove = Some (token computerMove)
  /\ outcome (rama (token userMove) (token computerMove))
     = decideOutcome userMove computerMove
  /\ outcome (rama (token Rock) (token Scissors)) = Win
  /\ outcome (rama (token Rock) (token Paper)) = Loss
  /\ outcome (rama (token Paper) (token Paper)) = Draw
  /\ exists w,
       jugarRonda (token userMove) (indice computerMove) paginaIniciada = Some w
       /\ historial (estadisticas w)
          = Some [objetoRonda (token userMove) (token computerMove)
                    (tokenOutcome (decideOutcome userMove computerMove))]
       /\ marcador (estadisticas w)
          = Some (marcadorDe (decideOutcome userMove computerMove)).
Proof.
  destruct userMove, computerMove; (repeat split; try reflexivity);
    eexists; (split; [vm_compute; reflexivity|]); split; reflexivity.
Qed.

(** ** Saving and loading *)


(** C5: from any state a reset leaves the all-zero statistics with an
    empty history, stores the text of exactly that value, and a second
    reset changes nothing. *)
Theorem C5_reinicio (w : Mundo) :
  exists w',
    reiniciarResultados w = Some w'
    /\ estadisticas w' = estadisticasIniciales
    /\ marcador (estadisticas w') = Some (0, 0, 0, 0)
    /\ historial (estadisticas w') = Some []
    /\ localStorage w' !! STORAGE_KEY
       = Some (JSON_stringify estadisticasIniciales)
    /\ JSON_parse (JSON_stringify estadisticasIniciales)
       = Some estadisticasIniciales
    /\ reiniciarResultados w' = Some w'.
Proof.
  exists (trasReinicio w).
  split; [apply reiniciarResultados_efecto|].
  repeat split; try reflexivity.
  - apply lookup_insert_eq.
  - by rewrite reiniciarResultados_efecto, trasReinicio_dos_veces.
Qed.

(** ** The theme *)

Lemma iniciarJuego_paginaNueva :
  iniciarJuego false paginaNueva = Some paginaIniciada.
Proof. reflexivity. Qed.

Lemma alcanzable_paginaIniciada : alcanzable paginaIniciada.
Proof.
  apply (alc_visita ∅ {| oscuro := false; backgroundColor := ""; color := "" |}
           (Some "Cambiar a modo oscuro") pantallaVacia false).
  - reflexivity.
  - exact iniciarJuego_paginaNueva.
Defined.

(** C6, as stated, fails on the first visit: the page is in the light
    theme with no preference stored, and after two toggles the theme slot
    holds a preference. *)
Lemma C6_contraejemplo :
  alcanzable paginaIniciada
  /\ body paginaIniciada = cuerpoDe Light
  /\ localStorage paginaIniciada !! STORAGE_THEME_KEY = None
  /\ localStorage (toggleModoOscuro (toggleModoOscuro paginaIniciada))
       !! STORAGE_THEME_KEY = Some "light"
  /\ ~ (body (toggleModoOscuro (toggleModoOscuro paginaIniciada))
          = body paginaIniciada
        /\ localStorage (toggleModoOscuro (toggleModoOscuro paginaIniciada))
             !! STORAGE_THEME_KEY
           = localStorage paginaIniciada !! STORAGE_THEME_KEY).
Proof.
  split; [exact alcanzable_paginaIniciada|].
  repeat split.
  intros [_ H]. vm_compute in H. discriminate.
Qed.

(** C6, amended: from either theme one toggle gives the other theme and
    two toggles bring back the dark class and the two colours; the storage
    is then the one of the start with the token of the starting theme in
    the theme slot, so it is the storage of the start exactly when that
    token was stored there. *)
Theorem C6_toggle_dos_veces (w : Mundo) (t : Tema) :
  body w = cuerpoDe t ->
  body (toggleModoOscuro w) = cuerpoDe (otroTema t)
  /\ body (toggleModoOscuro (toggleModoOscuro w)) = body w
  /\ localStorage (toggleModoOscuro (toggleModoOscuro w))
     = <[STORAGE_THEME_KEY := tokenTema t]> (localStorage w)
  /\ (localStorage (toggleModoOscuro (toggleModoOscuro w)) = localStorage w
      <-> localStorage w !! STORAGE_THEME_KEY = Some (tokenTema t)).
Proof.
  intros Hb. rewrite !toggle_cuerpo, !toggle_almacen, !toggle_cuerpo, Hb.
  assert (forall a b : string,
            <[STORAGE_THEME_KEY := a]>
              (<[STORAGE_THEME_KEY := b]> (localStorage w))
            = localStorage w
            <-> localStorage w !! STORAGE_THEME_KEY = Some a) as Hiff.
  { intros a b. rewrite insert_insert_eq. split.
    - intros <-. apply lookup_insert_eq.
    - apply insert_id. }
  destruct t; simpl; repeat split;
    try apply insert_insert_eq; apply Hiff.
Qed.




(** C9: a toggle leaves the statistics, the statistics slot, every slot
    but the theme slot, and the drawn counters and history as they were. *)
Theorem C9_toggle_no_toca_estadisticas (w : Mundo) :
  estadisticas (toggleModoOscuro w) = estadisticas w
  /\ localStorage (toggleModoOscuro w) !! STORAGE_KEY
     = localStorage w !! STORAGE_KEY
  /\ delete STORAGE_THEME_KEY (localStorage (toggleModoOscuro w))
     = delete STORAGE_THEME_KEY (localStorage w)
  /\ pantalla (toggleModoOscuro w) = pantalla w.
Proof.
  unfold toggleModoOscuro.
  destruct (oscuro (body w)); simpl; repeat split;
    try (apply lookup_insert_ne; discriminate);
    apply delete_insert_eq.
Qed.

Lemma rama_fuera elegirUsuario comp :
  elegirUsuario ∉ opciones -> comp ∈ opciones ->
  rama elegirUsuario comp = Perdiste.
Proof.
  intros Hu Hc. unfold rama.
  assert (elegirUsuario <> comp) as Hne by (intros ->; done).
  apply String.eqb_neq in Hne. rewrite Hne.
  assert (forall m, m ∈ opciones -> String.eqb elegirUsuario m = false) as Hm.
  { intros m Hin. apply String.eqb_neq. intros ->. done. }
  rewrite !Hm; [done|unfold opciones; repeat constructor..].
Qed.

(** C10: a choice outside the three moves is played, not rejected: it
    counts as a loss, one more round and one more win of the computer,
    and the history starts with a record that holds the choice as given. *)
Theorem C10_eleccion_fuera_de_rango (w : Mundo) (elegirUsuario : string)
    (azar : nat) :
  alcanzable w -> elegirUsuario ∉ opciones -> (azar < 3)%nat ->
  exists w' comp rondas usuario computadora empates h',
    opciones !! azar = Some comp
    /\ jugarRonda elegirUsuario azar w = Some w'
    /\ marcador (estadisticas w) = Some (rondas, usuario, computadora, empates)
    /\ marcador (estadisticas w')
       = Some (rondas + 1, usuario, computadora + 1, empates)
    /\ historial (estadisticas w') = Some h'
    /\ h' !! 0%nat = Some (objetoRonda elegirUsuario comp "Perdiste")
    /\ h' !! 0%nat ≫= leeRonda = Some (elegirUsuario, comp, "Perdiste").
Proof.
  intros Hw Hu Hazar.
  destruct (alcanzable_coherente w Hw)
    as [(r & u & c & e & h & He & Hsum & Hpos & Hh & Hlen) _].
  destruct (lookup_lt_is_Some_2 opciones azar Hazar) as [comp Hc].
  destruct (jugarRonda_paso elegirUsuario azar comp w r u c e h He Hh Hc)
    as (w' & Hw' & He' & _).
  rewrite (rama_fuera elegirUsuario comp) in He'
    by (try done; by eapply list_elem_of_lookup_2).
  assert (recorta (objetoRonda elegirUsuario comp "Perdiste" :: h) !! 0%nat
          = Some (objetoRonda elegirUsuario comp "Perdiste")) as H0.
  { unfold recorta. case_match; [|done]. by destruct h. }
  eexists w', comp, r, u, c, e, _.
  rewrite He, He'. repeat split; try done.
  change (resultadoTipo Perdiste) with "Perdiste". by rewrite H0.
Qed.

(** ** Instances *)

Lemma alcanzable_jugarRondas rs :
  forall w w',
    alcanzable w -> Forall (fun x : string * nat => (x.2 < 3)%nat) rs ->
    jugarRondas rs w = Some w' -> alcanzable w'.
Proof.
  induction rs as [|[u i] rs IH]; intros w w' Hw Hrs H; simpl in H.
  - by injection H as <-.
  - apply Forall_cons in Hrs as [Hi Hrs].
    destruct (jugarRonda u i w) as [w1|] eqn:E; simpl in H; [|discriminate].
    eapply IH; [|exact Hrs|exact H]. by eapply alc_ronda.
Qed.

Lemma alcanzable_paginaLlena : alcanzable paginaLlena.
Proof.
  apply (alcanzable_jugarRondas cincoRondas paginaIniciada).
  - exact alcanzable_paginaIniciada.
  - unfold cincoRondas. repeat constructor.
  - vm_compute. reflexivity.
Qed.

Lemma C1_testigo :
  exists w w' rondas usuario computadora empates,
    jugarRondas cincoRondas paginaIniciada = Some w
    /\ marcador (estadisticas w) = Some (rondas, usuario, computadora, empates)
    /\ usuario + computadora + empates = rondas
    /\ (0 <= usuario /\ 0 <= computadora /\ 0 <= empates)
    /\ rondas = Z.of_nat (length cincoRondas)
    /\ jugarRonda "tijera" 1 w = Some w'
    /\ (marcador (estadisticas w')
          = Some (rondas + 1, usuario + 1, computadora, empates)
        \/ marcador (estadisticas w')
          = Some (rondas + 1, usuario, computadora + 1, empates)
        \/ marcador (estadisticas w')
          = Some (rondas + 1, usuario, computadora, empates + 1)).
Proof.
  apply (C1_contadores_suman paginaIniciada cincoRondas "tijera" 1).
  - reflexivity.
  - unfold cincoRondas. repeat constructor.
  - lia.
Defined.

Lemma C2_testigo :
  exists w' comp h h',
    opciones !! 0%nat = Some comp
    /\ jugarRonda "piedra" 0 paginaLlena = Some w'
    /\ historial (estadisticas paginaLlena) = Some h
    /\ historial (estadisticas w') = Some h'
    /\ h' !! 0%nat
       = Some (objetoRonda "piedra" comp (resultadoTipo (rama "piedra" comp)))
    /\ (length h <= 5)%nat /\ (length h' <= 5)%nat
    /\ (((length h < 5)%nat
         /\ h' = objetoRonda "piedra" comp
                   (resultadoTipo (rama "piedra" comp)) :: h)
        \/ ((length h = 5)%nat
            /\ exists viejo,
                 objetoRonda "piedra" comp
                   (resultadoTipo (rama "piedra" comp)) :: h
                 = h' ++ [viejo])).
Proof.
  apply (C2_historial_acotado paginaLlena "piedra" 0).
  - exact alcanzable_paginaLlena.
  - lia.
Defined.


Lemma C6_testigo :
  body (toggleModoOscuro paginaIniciada) = cuerpoDe (otroTema Light)
  /\ body (toggleModoOscuro (toggleModoOscuro paginaIniciada))
     = body paginaIniciada
  /\ localStorage (toggleModoOscuro (toggleModoOscuro paginaIniciada))
     = <[STORAGE_THEME_KEY := tokenTema Light]> (localStorage paginaIniciada)
  /\ (localStorage (toggleModoOscuro (toggleModoOscuro paginaIniciada))
      = localStorage paginaIniciada
      <-> localStorage paginaIniciada !! STORAGE_THEME_KEY
          = Some (tokenTema Light)).
Proof.
  apply (C6_toggle_dos_veces paginaIniciada Light). reflexivity.
Defined.



Lemma C10_testigo :
  exists w' comp rondas usuario computadora empates h',
    opciones !! 2%nat = Some comp
    /\ jugarRonda "lagarto" 2 paginaLlena = Some w'
    /\ marcador (estadisticas paginaLlena)
       = Some (rondas, usuario, computadora, empates)
    /\ marcador (estadisticas w')
       = Some (rondas + 1, usuario, computadora + 1, empates)
    /\ historial (estadisticas w') = Some h'
    /\ h' !! 0%nat = Some (objetoRonda "lagarto" comp "Perdiste")
    /\ h' !! 0%nat ≫= leeRonda = Some ("lagarto", comp, "Perdiste").
Proof.
  apply (C10_eleccion_fuera_de_rango paginaLlena "lagarto" 2).
  - exact alcanzable_paginaLlena.
  - apply (bool_decide_unpack _). vm_compute. reflexivity.
  - lia.
Defined.

(** * More on the handlers *)

(** ** Drawing *)

Lemma actualizarUI_forma_de w w' :
  actualizarUI w = Some w' ->
  exists p, w' = conPantalla p w
    /\ resultadoPartida p = resultadoPartida (pantalla w)
    /\ forall q, resultadoPartida q = resultadoPartida (pantalla w) ->
         actualizarUI (conPantalla q w) = Some w'.
Proof.
  unfold actualizarUI. intros H. cbn [estadisticas conPantalla pantalla].
  destruct (textoNumero (campo "rondas" (estadisticas w))) as [r|];
    [|discriminate].
  destruct (textoNumero (campo "usuario" (estadisticas w))) as [u|];
    [|discriminate].
  destruct (textoNumero (campo "computadora" (estadisticas w))) as [c|];
    [|discriminate].
  destruct (textoNumero (campo "empates" (estadisticas w))) as [e|];
    [|discriminate].
  cbn [mbind option_bind] in *.
  destruct (campo "historial" (estadisticas w)) as [[| | | |h|]|];
    try discriminate.
  destruct (mapM elementoLista h) as [l|]; [|discriminate].
  cbn [mbind option_bind] in *. injection H as <-.
  eexists. split; [reflexivity|]. split; [reflexivity|].
  intros q Hq. by rewrite Hq.
Qed.

Lemma actualizarUI_marco w1 w2 :
  actualizarUI w1 = Some w1 ->
  estadisticas w2 = estadisticas w1 -> pantalla w2 = pantalla w1 ->
  actualizarUI w2 = Some w2.
Proof.
  intros H He Hp.
  destruct (actualizarUI_forma_de w1 w1 H) as (p & Hw & _ & Hq).
  assert (pantalla w1 = p) as Hp1 by (rewrite Hw at 1; reflexivity).
  specialize (Hq (pantalla w1) eq_refl).
  unfold actualizarUI in *. cbn [estadisticas conPantalla pantalla] in Hq.
  rewrite He, Hp.
  repeat (match type of Hq with
          | mbind _ ?o = Some _ => destruct o; simpl in Hq; [|discriminate]
          | match ?o with _ => _ end = Some _ => destruct o; try discriminate
          end).
  cbn [mbind option_bind]. injection Hq as Hq.
  apply (f_equal pantalla) in Hq. cbn [pantalla conPantalla] in Hq.
  rewrite Hq, <- Hp. by destruct w2.
Qed.

Lemma jugarRonda_partes elegirUsuario azar w w' :
  jugarRonda elegirUsuario azar w = Some w' ->
  exists comp e3 msg,
    opciones !! azar = Some comp
    /\ actualizarUI
         (guardarEstadisticas
            (conPantalla (conResultado msg (pantalla w)) (conEstadisticas e3 w)))
       = Some w'.
Proof.
  unfold jugarRonda. intros H.
  destruct (opciones !! azar) as [comp|]; [|discriminate].
  cbn [mbind option_bind] in H.
  destruct (masMas _ (estadisticas w)) as [e1|]; [|discriminate].
  cbn [mbind option_bind] in H.
  destruct (masMas "rondas" e1) as [e2|]; [|discriminate].
  cbn [mbind option_bind] in H.
  destruct (campo "historial" e2) as [[| | | |h|]|]; try discriminate.
  destruct (asigna "historial" _ e2) as [e3|]; [|discriminate].
  cbn [mbind option_bind] in H. by eexists comp, e3, _.
Qed.

Lemma iniciarJuego_partes prefiere w w' :
  iniciarJuego prefiere w = Some w' ->
  exists w1 w2,
    cargarEstadisticas w = Some w1 /\ actualizarUI w1 = Some w2
    /\ w' = cargarModoOscuro prefiere w2.
Proof.
  unfold iniciarJuego. intros H.
  destruct (cargarEstadisticas w) as [w1|]; [|discriminate].
  cbn [mbind option_bind] in H.
  destruct (actualizarUI w1) as [w2|] eqn:E; [|discriminate].
  cbn [mbind option_bind] in H. injection H as <-. by eexists w1, w2.
Qed.

Lemma actualizarUI_dos_veces w w' :
  actualizarUI w = Some w' -> actualizarUI w' = Some w'.
Proof.
  intros H. destruct (actualizarUI_forma_de w w' H) as (p & -> & Hp & Hq).
  by apply Hq.
Qed.

(** After every handler the screen shows the statistics of the moment. *)
Lemma alcanzable_dibujado w : alcanzable w -> actualizarUI w = Some w.
Proof.
  induction 1 as [almacen b et p pref w Hs Hw
                 |w usuario azar w' _ _ Hazar Hw
                 |w w' _ _ Hw
                 |w _ IH
                 |w b et p pref w' _ _ Hw].
  - apply iniciarJuego_partes in Hw as (w1 & w2 & _ & H2 & ->).
    apply actualizarUI_dos_veces in H2.
    by apply (actualizarUI_marco w2).
  - apply jugarRonda_partes in Hw as (comp & e3 & msg & _ & Hw).
    by eapply actualizarUI_dos_veces.
  - by eapply actualizarUI_dos_veces.
  - apply (actualizarUI_marco w); [done|apply toggle_estadisticas|].
    unfold toggleModoOscuro. by destruct (oscuro (body w)).
  - apply iniciarJuego_partes in Hw as (w1 & w2 & _ & H2 & ->).
    apply actualizarUI_dos_veces in H2.
    by apply (actualizarUI_marco w2).
Qed.

Lemma pantalla_de_forma w r u c e h :
  actualizarUI w = Some w ->
  estadisticas w = objetoEstadisticas r u c e h ->
  rondasJugadas (pantalla w) = Texto.cadena (Texto.cifras r)
  /\ ganadasUsuario (pantalla w) = Texto.cadena (Texto.cifras u)
  /\ ganadasComput (pantalla w) = Texto.cadena (Texto.cifras c)
  /\ rondasEmpates (pantalla w) = Texto.cadena (Texto.cifras e)
  /\ mapM elementoLista h = Some (listaRondas (pantalla w)).
Proof.
  intros H He. unfold actualizarUI in H. rewrite He in H.
  cbn -[mapM Texto.cifras] in H.
  destruct (mapM elementoLista h) as [l|]; [|discriminate].
  cbn [mbind option_bind] in H. injection H as H.
  apply (f_equal pantalla) in H. cbn [pantalla conPantalla] in H.
  rewrite <- H. done.
Qed.

(** X1: drawing changes nothing but the counters and the list on the
    screen, what it draws does not depend on what was drawn before, and
    drawing again changes nothing. *)
Theorem X1_dibujar_depende_solo_del_estado (w w' : Mundo) :
  actualizarUI w = Some w' ->
  estadisticas w' = estadisticas w
  /\ localStorage w' = localStorage w
  /\ body w' = body w
  /\ etiquetaModo w' = etiquetaModo w
  /\ resultadoPartida (pantalla w') = resultadoPartida (pantalla w)
  /\ actualizarUI w' = Some w'
  /\ forall q, resultadoPartida q = resultadoPartida (pantalla w) ->
       actualizarUI (conPantalla q w) = Some w'.
Proof.
  intros H. pose proof (actualizarUI_dos_veces w w' H) as H2.
  destruct (actualizarUI_forma_de w w' H) as (p & -> & Hp & Hq).
  repeat split; done.
Qed.

(** X2: in every reachable world the screen is up to date: drawing again
    would change nothing, and the four counters on the screen are the
    decimal texts of the four counters of the statistics. *)
Theorem X2_pantalla_al_dia (w : Mundo) :
  alcanzable w ->
  actualizarUI w = Some w
  /\ exists rondas usuario computadora empates,
       marcador (estadisticas w) = Some (rondas, usuario, computadora, empates)
       /\ rondasJugadas (pantalla w) = Texto.cadena (Texto.cifras rondas)
       /\ ganadasUsuario (pantalla w) = Texto.cadena (Texto.cifras usuario)
       /\ ganadasComput (pantalla w) = Texto.cadena (Texto.cifras computadora)
       /\ rondasEmpates (pantalla w) = Texto.cadena (Texto.cifras empates).
Proof.
  intros Hw. pose proof (alcanzable_dibujado w Hw) as Hd.
  split; [done|].
  destruct (alcanzable_coherente w Hw)
    as [(r & u & c & e & h & He & _) _].
  destruct (pantalla_de_forma w r u c e h Hd He) as (Hr & Hu & Hc & Hem & _).
  exists r, u, c, e. rewrite He. done.
Qed.

(** ** Invariants of the statistics *)

Lemma visita_estadisticas almacen b etiqueta p prefiere w :
  almacen !! STORAGE_KEY = None ->
  iniciarJuego prefiere (alCargar almacen b etiqueta p) = Some w ->
  estadisticas w = estadisticasIniciales.
Proof.
  intros Hs Hw. apply iniciarJuego_estado in Hw as (w1 & H1 & He & _).
  rewrite cargarEstadisticas_ausente in H1 by done.
  injection H1 as <-. by rewrite He.
Qed.

Lemma recarga_estadisticas w b etiqueta p prefiere w' :
  alcanzable w ->
  iniciarJuego prefiere (alCargar (localStorage w) b etiqueta p) = Some w' ->
  estadisticas w' = estadisticas w.
Proof.
  intros Hw H.
  destruct (recarga_total w b etiqueta p prefiere Hw) as (w2 & H2 & He).
  rewrite H in H2. by injection H2 as <-.
Qed.

(** To show that the statistics of every reachable world satisfy [P]:
    the all-zero literal does, and a round keeps it. *)
Lemma alcanzable_estadisticas_ind (P : valor -> Prop) :
  P estadisticasIniciales ->
  (forall w elegirUsuario azar w',
     alcanzable w -> P (estadisticas w) -> (azar < 3)%nat ->
     jugarRonda elegirUsuario azar w = Some w' -> P (estadisticas w')) ->
  forall w, alcanzable w -> P (estadisticas w).
Proof.
  intros H0 Hronda.
  induction 1 as [almacen b et p pref w Hs Hw
                 |w usuario azar w' Hw IH Hazar Hr
                 |w w' _ _ Hw
                 |w _ IH
                 |w b et p pref w' Hw0 IH Hw].
  - by rewrite (visita_estadisticas _ _ _ _ _ _ Hs Hw).
  - by eapply Hronda.
  - rewrite reiniciarResultados_efecto in Hw. by injection Hw as <-.
  - by rewrite toggle_estadisticas.
  - by rewrite (recarga_estadisticas _ _ _ _ _ _ Hw0 Hw).
Qed.

Lemma esJugada_registro usuario azar comp :
  opciones !! azar = Some comp ->
  esJugada (objetoRonda usuario comp (resultadoTipo (rama usuario comp))).
Proof.
  intros H. exists usuario, comp. split; [|done].
  by eapply list_elem_of_lookup_2.
Qed.

Lemma alcanzable_jugadas w :
  alcanzable w ->
  exists h, historial (estadisticas w) = Some h /\ Forall esJugada h.
Proof.
  revert w.
  apply (alcanzable_estadisticas_ind
           (fun est => exists h, historial est = Some h /\ Forall esJugada h)).
  - by exists [].
  - intros w usuario azar w' Hw (h0 & Hh0 & Hj) Hazar Hr.
    destruct (alcanzable_coherente w Hw)
      as [(r & u & c & e & h & He & _ & _ & Hh & _) _].
    rewrite He in Hh0. injection Hh0 as <-.
    destruct (lookup_lt_is_Some_2 opciones azar Hazar) as [comp Hc].
    destruct (jugarRonda_paso usuario azar comp w r u c e h He Hh Hc)
      as (w1 & Hw1 & He1 & _).
    rewrite Hr in Hw1. injection Hw1 as <-.
    rewrite He1, historial_trasRonda. eexists. split; [done|].
    unfold recorta. case_match.
    + apply Forall_removelast. constructor; [|done].
      by eapply esJugada_registro.
    + constructor; [|done]. by eapply esJugada_registro.
Qed.

Lemma elementoLista_clase usuario comp ra :
  fst <$> elementoLista (objetoRonda usuario comp (resultadoTipo ra))
  = Some (claseDe ra).
Proof. by destruct ra. Qed.

(** X3: in every reachable world the list on the screen has one line per
    history record, in the same order, and the class of each line is the
    one of the outcome of its round: green for a win, red for a loss, grey
    for a draw. *)
Theorem X3_lista_dibujada (w : Mundo) :
  alcanzable w ->
  exists h,
    historial (estadisticas w) = Some h
    /\ length (listaRondas (pantalla w)) = length h
    /\ forall (i : nat) (v : valor),
         h !! i = Some v ->
         exists usuario comp,
           comp ∈ opciones
           /\ v = objetoRonda usuario comp (resultadoTipo (rama usuario comp))
           /\ fst <$> (listaRondas (pantalla w) !! i)
              = Some (claseDe (rama usuario comp)).
Proof.
  intros Hw. destruct (alcanzable_jugadas w Hw) as (h & Hh & Hj).
  pose proof (alcanzable_dibujado w Hw) as Hd.
  destruct (alcanzable_coherente w Hw)
    as [(r & u & c & e & h0 & He & _) _].
  assert (h0 = h) as -> by (rewrite He in Hh; by injection Hh).
  destruct (pantalla_de_forma w r u c e h Hd He) as (_ & _ & _ & _ & Hl).
  exists h. split; [done|]. split; [symmetry; by eapply length_mapM|].
  intros i v Hi.
  destruct (proj1 (Forall_lookup _ _) Hj i v Hi) as (usuario & comp & Hc & ->).
  exists usuario, comp. split; [done|]. split; [done|].
  apply mapM_Some_1 in Hl.
  destruct (Forall2_lookup_l _ _ _ _ _ Hl Hi) as (y & Hy & Hel).
  rewrite Hy. cbn. rewrite <- (elementoLista_clase usuario comp).
  by rewrite Hel.
Qed.

(** X4: in every reachable world, across resets and reloads, the outcome
    counters are not negative and add up to the rounds, every history
    record is a round that can have been played, and the history holds as
    many records as rounds were played, up to five. *)
Theorem X4_contadores_e_historial (w : Mundo) :
  alcanzable w ->
  exists rondas usuario computadora empates h,
    marcador (estadisticas w) = Some (rondas, usuario, computadora, empates)
    /\ historial (estadisticas w) = Some h
    /\ usuario + computadora + empates = rondas
    /\ (0 <= usuario /\ 0 <= computadora /\ 0 <= empates)
    /\ Z.of_nat (length h) = Z.min 5 rondas
    /\ Forall esJugada h
    /\ Forall (fun item => exists elegirUsuario comp,
                  comp ∈ opciones
                  /\ leeRonda item
                     = Some (elegirUsuario, comp,
                             resultadoTipo (rama elegirUsuario comp))) h.
Proof.
  intros Hw. destruct (alcanzable_jugadas w Hw) as (h & Hh & Hj).
  enough (exists r u c e h,
            estadisticas w = objetoEstadisticas r u c e h
            /\ u + c + e = r /\ (0 <= u /\ 0 <= c /\ 0 <= e)
            /\ Z.of_nat (length h) = Z.min 5 r)
    as (r & u & c & e & h0 & He & Hsum & Hpos & Hlen).
  { exists r, u, c, e, h. rewrite He in Hh |- *. injection Hh as <-.
    destruct Hpos as (? & ? & ?). split_and!; try done.
    eapply Forall_impl; [exact Hj|].
    intros item (usuario & comp & Hin & ->). by exists usuario, comp. }
  clear h Hh Hj. revert w Hw.
  apply (alcanzable_estadisticas_ind
           (fun est => exists r u c e h,
              est = objetoEstadisticas r u c e h
              /\ u + c + e = r /\ (0 <= u /\ 0 <= c /\ 0 <= e)
              /\ Z.of_nat (length h) = Z.min 5 r)).
  - exists 0, 0, 0, 0, []. repeat split; simpl; lia.
  - intros w usuario azar w' Hw (r & u & c & e & h & He & Hsum & Hpos & Hlen)
      Hazar Hr.
    destruct (alcanzable_coherente w Hw)
      as [(r0 & u0 & c0 & e0 & h0 & He0 & _ & _ & Hh & _) _].
    rewrite He in He0. injection He0 as <- <- <- <- <-.
    destruct (lookup_lt_is_Some_2 opciones azar Hazar) as [comp Hc].
    destruct (jugarRonda_paso usuario azar comp w r u c e h He Hh Hc)
      as (w1 & Hw1 & He1 & _).
    rewrite Hr in Hw1. injection Hw1 as <-.
    set (nuevo := objetoRonda usuario comp
                    (resultadoTipo (rama usuario comp))) in *.
    assert (Z.of_nat (length (recorta (nuevo :: h))) = Z.min 5 (r + 1)) as Hl.
    { unfold recorta. destruct (5 <? length (nuevo :: h))%nat eqn:E.
      - apply Nat.ltb_lt in E. rewrite length_removelast. simpl in *. lia.
      - apply Nat.ltb_ge in E. simpl in *. lia. }
    rewrite He1. destruct (rama usuario comp); simpl;
      eexists _, _, _, _, _; (split; [reflexivity|]);
      repeat split; try lia; exact Hl.
Qed.

(** ** More on the theme *)

Lemma cargarModoOscuro_marco prefiere w :
  estadisticas (cargarModoOscuro prefiere w) = estadisticas w
  /\ localStorage (cargarModoOscuro prefiere w) = localStorage w
  /\ pantalla (cargarModoOscuro prefiere w) = pantalla w.
Proof. done. Qed.

Lemma cargarModoOscuro_etiqueta prefiere w :
  etiquetaModo (cargarModoOscuro prefiere w)
  = (fun _ => etiquetaDe (oscuro (body (cargarModoOscuro prefiere w))))
      <$> etiquetaModo w.
Proof. done. Qed.

Lemma toggle_etiqueta w :
  etiquetaModo (toggleModoOscuro w)
  = (fun _ => etiquetaDe (oscuro (body (toggleModoOscuro w))))
      <$> etiquetaModo w.
Proof. unfold toggleModoOscuro. by destruct (oscuro (body w)). Qed.

Lemma jugarRonda_marco elegirUsuario azar w w' :
  jugarRonda elegirUsuario azar w = Some w' ->
  body w' = body w /\ etiquetaModo w' = etiquetaModo w
  /\ localStorage w'
     = <[STORAGE_KEY := JSON_stringify (estadisticas w')]> (localStorage w).
Proof.
  intros H. apply jugarRonda_partes in H as (comp & e3 & msg & _ & H).
  apply actualizarUI_estado in H as (He & Hs & Hb & Hl).
  rewrite He, Hs, Hb, Hl. done.
Qed.

Lemma toggle_pantalla w : pantalla (toggleModoOscuro w) = pantalla w.
Proof. unfold toggleModoOscuro. by destruct (oscuro (body w)). Qed.

Lemma mundo_ext w1 w2 :
  estadisticas w1 = estadisticas w2 -> localStorage w1 = localStorage w2 ->
  body w1 = body w2 -> etiquetaModo w1 = etiquetaModo w2 ->
  pantalla w1 = pantalla w2 -> w1 = w2.
Proof. destruct w1, w2. cbn. by intros -> -> -> -> ->. Qed.

(** X5: a stored theme other than [dark] gives the light look whatever
    the system prefers, except the empty text, which counts as nothing
    stored and lets the system preference decide. *)
Theorem X5_tema_guardado_desconocido (prefiereOscuro : bool) (w : Mundo)
    (t : string) :
  localStorage w !! STORAGE_THEME_KEY = Some t ->
  t <> "dark" ->
  body (cargarModoOscuro prefiereOscuro w)
  = if String.eqb t "" then cuerpoDe (resolucion None prefiereOscuro)
    else cuerpoClaro.
Proof.
  intros Hs Ht. unfold cargarModoOscuro. rewrite Hs.
  apply String.eqb_neq in Ht. rewrite Ht.
  destruct (String.eqb t ""), prefiereOscuro; done.
Qed.

(** X6: starting the page writes nothing to the storage, whatever theme
    it resolves and whatever statistics it loads, and leaves the result
    message alone. *)
Theorem X6_iniciar_no_escribe (prefiereOscuro : bool) (w w' : Mundo) :
  iniciarJuego prefiereOscuro w = Some w' ->
  localStorage w' = localStorage w
  /\ resultadoPartida (pantalla w') = resultadoPartida (pantalla w).
Proof.
  intros H. apply iniciarJuego_partes in H as (w1 & w2 & H1 & H2 & ->).
  apply cargarEstadisticas_almacen in H1 as Hs1.
  assert (pantalla w1 = pantalla w) as Hp1.
  { unfold cargarEstadisticas in H1.
    destruct (localStorage w !! STORAGE_KEY) as [s|]; [|by injection H1 as <-].
    destruct (String.eqb s ""); [by injection H1 as <-|].
    destruct (JSON_parse s); simpl in H1; [|discriminate].
    by injection H1 as <-. }
  destruct (actualizarUI_forma_de w1 w2 H2) as (p & -> & Hp & _).
  cbn. by rewrite Hs1, Hp, Hp1.
Qed.

(** X7: in every reachable world the body has one of the two looks, and
    the label of the toggle, when the page has one, names the other
    look. *)
Theorem X7_etiqueta_y_cuerpo (w : Mundo) :
  alcanzable w ->
  (body w = cuerpoClaro \/ body w = cuerpoOscuro)
  /\ forall texto, etiquetaModo w = Some texto ->
       texto = etiquetaDe (oscuro (body w)).
Proof.
  assert (forall p w,
            (body (cargarModoOscuro p w) = cuerpoClaro
             \/ body (cargarModoOscuro p w) = cuerpoOscuro)
            /\ forall texto, etiquetaModo (cargarModoOscuro p w) = Some texto ->
                 texto = etiquetaDe (oscuro (body (cargarModoOscuro p w))))
    as Hcarga.
  { intros p w0. split.
    - unfold cargarModoOscuro. cbn. case_match; auto.
    - intros texto. rewrite cargarModoOscuro_etiqueta.
      destruct (etiquetaModo w0); cbn; [|discriminate]. by intros [= <-]. }
  induction 1 as [almacen b et p pref w Hs Hw
                 |w usuario azar w' _ IH Hazar Hw
                 |w w' _ IH Hw
                 |w _ IH
                 |w b et p pref w' _ _ Hw].
  - apply iniciarJuego_partes in Hw as (w1 & w2 & _ & _ & ->). apply Hcarga.
  - apply jugarRonda_marco in Hw as (-> & -> & _). exact IH.
  - rewrite reiniciarResultados_efecto in Hw. injection Hw as <-. exact IH.
  - split.
    + rewrite toggle_cuerpo. case_match; auto.
    + intros texto. rewrite toggle_etiqueta.
      destruct (etiquetaModo w); cbn; [|discriminate]. by intros [= <-].
  - apply iniciarJuego_partes in Hw as (w1 & w2 & _ & _ & ->). apply Hcarga.
Qed.

(** X8: the theme a toggle sets is the one the next load of the page
    resolves, whatever the system prefers then. *)
Theorem X8_toggle_y_recarga (w : Mundo) (b : Cuerpo) (etiqueta : option string)
    (p : Pantalla) (prefiereOscuro : bool) (w' : Mundo) :
  iniciarJuego prefiereOscuro
    (alCargar (localStorage (toggleModoOscuro w)) b etiqueta p) = Some w' ->
  body w' = body (toggleModoOscuro w)
  /\ oscuro (body w') = negb (oscuro (body w)).
Proof.
  intros H. apply iniciarJuego_partes in H as (w1 & w2 & H1 & H2 & ->).
  apply cargarEstadisticas_almacen in H1 as Hs1.
  apply actualizarUI_estado in H2 as (_ & Hs2 & _).
  cbn [alCargar localStorage] in Hs1.
  unfold cargarModoOscuro. cbn [body rotula conEtiqueta conCuerpo].
  rewrite Hs2, Hs1, toggle_almacen, lookup_insert_eq, toggle_cuerpo.
  by destruct (oscuro (body w)), prefiereOscuro.
Qed.

(** X9: a toggle always flips the dark class, and once a toggle has been
    made two more toggles bring back the whole world: statistics, both
    slots, body, label and screen. *)
Theorem X9_toggle_tres_veces (w : Mundo) :
  oscuro (body (toggleModoOscuro w)) = negb (oscuro (body w))
  /\ toggleModoOscuro (toggleModoOscuro (toggleModoOscuro w))
     = toggleModoOscuro w.
Proof.
  split.
  - rewrite toggle_cuerpo. by destruct (oscuro (body w)).
  - apply mundo_ext.
    + by rewrite !toggle_estadisticas.
    + rewrite !toggle_almacen, !toggle_cuerpo.
      destruct (oscuro (body w)); cbn [oscuro cuerpoClaro cuerpoOscuro];
        by rewrite !insert_insert_eq.
    + rewrite !toggle_cuerpo.
      by destruct (oscuro (body w)).
    + rewrite !toggle_etiqueta, !toggle_cuerpo.
      by destruct (oscuro (body w)), (etiquetaModo w).
    + by rewrite !toggle_pantalla.
Qed.

(** ** More on rounds, storage and reloads *)

(** X10: a round that completes, in any world, leaves the body, the label
    of the toggle and every slot but the statistics slot as they were,
    and leaves in the statistics slot the text of the statistics it
    ends with. *)
Theorem X10_ronda_guarda_y_no_toca_tema (elegirUsuario : string) (azar : nat)
    (w w' : Mundo) :
  jugarRonda elegirUsuario azar w = Some w' ->
  body w' = body w
  /\ etiquetaModo w' = etiquetaModo w
  /\ localStorage w' !! STORAGE_THEME_KEY = localStorage w !! STORAGE_THEME_KEY
  /\ delete STORAGE_KEY (localStorage w') = delete STORAGE_KEY (localStorage w)
  /\ localStorage w' !! STORAGE_KEY = Some (JSON_stringify (estadisticas w')).
Proof.
  intros H. apply jugarRonda_marco in H as (Hb & Hl & Hs).
  rewrite Hb, Hl, Hs. repeat split.
  - apply lookup_insert_ne. discriminate.
  - apply delete_insert_eq.
  - apply lookup_insert_eq.
Qed.

(** X11: in every reachable world the statistics slot is never behind the
    statistics: it holds their text, which [JSON.parse] reads back to
    them, or it holds nothing and they are still the all-zero literal. *)
Theorem X11_almacen_al_dia (w : Mundo) :
  alcanzable w ->
  match localStorage w !! STORAGE_KEY with
  | Some s =>
      s = JSON_stringify (estadisticas w)
      /\ JSON_parse s = Some (estadisticas w)
  | None => estadisticas w = estadisticasIniciales
  end.
Proof.
  intros Hw. destruct (alcanzable_coherente w Hw) as [Hf [[-> He]| ->]].
  - exact He.
  - split; [done|]. by apply JSON_parse_stringify, canonico_formada.
Qed.

Lemma take_app_take {A} (n : nat) (a b : list A) :
  take n (a ++ take n b) = take n (a ++ b).
Proof.
  rewrite !take_app, take_take. do 2 f_equal. lia.
Qed.

Lemma recorta_take x h :
  (length h <= 5)%nat -> recorta (x :: h) = take 5 (x :: h).
Proof.
  intros Hh. unfold recorta. destruct (5 <? length (x :: h))%nat eqn:E.
  - apply Nat.ltb_lt in E. rewrite removelast_firstn_len.
    simpl in E. assert (length h = 5%nat) as Hl by lia.
    simpl length. rewrite Hl. reflexivity.
  - apply Nat.ltb_ge in E. symmetry. by apply take_ge.
Qed.

Lemma cuentaRama_cons ra usuario azar comp rs :
  opciones !! azar = Some comp ->
  cuentaRama ra ((usuario, azar) :: rs)
  = (if mismaRama (rama usuario comp) ra then 1 else 0) + cuentaRama ra rs.
Proof. intros H. cbn [cuentaRama]. unfold tomaRama. cbn [fst snd]. by rewrite H. Qed.

Lemma objetoEstadisticas_eq r u c e h r' u' c' e' h' :
  r = r' -> u = u' -> c = c' -> e = e' -> h = h' ->
  objetoEstadisticas r u c e h = objetoEstadisticas r' u' c' e' h'.
Proof. by intros -> -> -> -> ->. Qed.

(** What a sequence of rounds makes of a statistics object of the
    expected shape. *)
Lemma jugarRondas_total rs :
  forall w r u c e h,
    estadisticas w = objetoEstadisticas r u c e h -> Forall esRonda h ->
    (length h <= 5)%nat ->
    Forall (fun x : string * nat => (x.2 < 3)%nat) rs ->
    exists w',
      jugarRondas rs w = Some w'
      /\ estadisticas w'
         = objetoEstadisticas (r + Z.of_nat (length rs))
             (u + cuentaRama Ganaste rs) (c + cuentaRama Perdiste rs)
             (e + cuentaRama Empate rs)
             (take 5 (reverse (omap registro rs) ++ h)).
Proof.
  induction rs as [|[usuario azar] rs IH]; intros w r u c e h He Hh Hlen Hrs.
  - exists w. split; [done|]. rewrite He. cbn.
    rewrite take_ge by done. apply objetoEstadisticas_eq; [lia..|done].
  - apply Forall_cons in Hrs as [Hazar Hrs]. simpl in Hazar.
    destruct (lookup_lt_is_Some_2 opciones azar Hazar) as [comp Hc].
    destruct (jugarRonda_paso usuario azar comp w r u c e h He Hh Hc)
      as (w1 & Hw1 & He1 & _).
    set (nuevo := objetoRonda usuario comp
                    (resultadoTipo (rama usuario comp))) in *.
    rewrite recorta_take in He1 by done.
    assert (Forall esRonda (take 5 (nuevo :: h))) as Hh1.
    { apply Forall_take. constructor; [by eexists _, _, _|done]. }
    assert (length (take 5 (nuevo :: h)) <= 5)%nat as Hlen1.
    { rewrite length_take. lia. }
    assert (omap registro ((usuario, azar) :: rs) = nuevo :: omap registro rs)
      as Hreg.
    { cbn [omap list_omap]. unfold registro at 1. cbn [fst snd].
      rewrite Hc. reflexivity. }
    cbn [jugarRondas]. rewrite Hw1. cbn [mbind option_bind].
    rewrite Hreg, reverse_cons, <- app_assoc. cbn [app].
    rewrite !(cuentaRama_cons _ usuario azar comp rs Hc).
    rewrite length_cons, Nat2Z.inj_succ.
    destruct (rama usuario comp); cbn [trasRonda mismaRama] in *;
      destruct (IH w1 _ _ _ _ _ He1 Hh1 Hlen1 Hrs) as (w' & Hw' & He');
      exists w'; (split; [done|]); rewrite He', take_app_take;
      apply objetoEstadisticas_eq; try lia; done.
Qed.

(** X12: after a sequence of rounds from the all-zero statistics the
    history is the records of the last five rounds, the newest first. *)
Theorem X12_historial_ultimas_cinco (w0 : Mundo) (rs : list (string * nat)) :
  estadisticas w0 = estadisticasIniciales ->
  Forall (fun x : string * nat => (x.2 < 3)%nat) rs ->
  exists w,
    jugarRondas rs w0 = Some w
    /\ historial (estadisticas w) = Some (take 5 (reverse (omap registro rs)))
    /\ length (omap registro rs) = length rs.
Proof.
  intros H0 Hrs.
  destruct (jugarRondas_total rs w0 0 0 0 0 [] H0 (List.Forall_nil _)
              (Nat.le_0_l _) Hrs) as (w & Hw & He).
  exists w. split; [done|]. rewrite He, app_nil_r. split; [done|].
  clear -Hrs. induction Hrs as [|[u i] rs Hi _ IH]; [done|].
  simpl in Hi. destruct (lookup_lt_is_Some_2 opciones i Hi) as [comp Hc].
  cbn [omap list_omap]. unfold registro at 1. cbn [fst snd]. rewrite Hc.
  cbn. by rewrite IH.
Qed.

(** X13: after a sequence of rounds from the all-zero statistics each
    outcome counter is the number of rounds of the whole sequence that
    took its branch, and the rounds counter is the length of the
    sequence. *)
Theorem X13_contadores_cuentan_ramas (w0 : Mundo) (rs : list (string * nat)) :
  estadisticas w0 = estadisticasIniciales ->
  Forall (fun x : string * nat => (x.2 < 3)%nat) rs ->
  exists w,
    jugarRondas rs w0 = Some w
    /\ marcador (estadisticas w)
       = Some (Z.of_nat (length rs), cuentaRama Ganaste rs,
               cuentaRama Perdiste rs, cuentaRama Empate rs).
Proof.
  intros H0 Hrs.
  destruct (jugarRondas_total rs w0 0 0 0 0 [] H0 (List.Forall_nil _)
              (Nat.le_0_l _) Hrs) as (w & Hw & He).
  exists w. split; [done|]. by rewrite He, marcador_objeto.
Qed.

(** X14: loading the page again over the storage of a reachable world
    never fails; it brings back the statistics, leaves the storage as it
    was, and draws the same counters and the same history lines. *)
Theorem X14_recarga_conserva (w : Mundo) (b : Cuerpo) (etiqueta : option string)
    (p : Pantalla) (prefiereOscuro : bool) :
  alcanzable w ->
  exists w',
    iniciarJuego prefiereOscuro (alCargar (localStorage w) b etiqueta p)
    = Some w'
    /\ estadisticas w' = estadisticas w
    /\ localStorage w' = localStorage w
    /\ rondasJugadas (pantalla w') = rondasJugadas (pantalla w)
    /\ ganadasUsuario (pantalla w') = ganadasUsuario (pantalla w)
    /\ ganadasComput (pantalla w') = ganadasComput (pantalla w)
    /\ rondasEmpates (pantalla w') = rondasEmpates (pantalla w)
    /\ listaRondas (pantalla w') = listaRondas (pantalla w).
Proof.
  intros Hw.
  destruct (recarga_total w b etiqueta p prefiereOscuro Hw) as (w' & Hw' & He).
  exists w'. split; [done|]. split; [done|].
  assert (alcanzable w') as Hw2 by (by eapply alc_recarga).
  apply iniciarJuego_estado in Hw' as (_ & _ & _ & Hs). split; [done|].
  destruct (alcanzable_coherente w Hw)
    as [(r & u & c & e & h & Hest & _) _].
  destruct (pantalla_de_forma w r u c e h (alcanzable_dibujado w Hw) Hest)
    as (-> & -> & -> & -> & Hl).
  rewrite <- He in Hest.
  destruct (pantalla_de_forma w' r u c e h (alcanzable_dibujado w' Hw2) Hest)
    as (-> & -> & -> & -> & Hl').
  repeat split. rewrite Hl in Hl'. by injection Hl'.
Qed.

(** ** More on the outcome and on empty texts *)

Lemma rama_ganaste a b :
  rama a b = Ganaste ->
  (a = "piedra" /\ b = "tijera") \/ (a = "papel" /\ b = "piedra")
  \/ (a = "tijera" /\ b = "papel").
Proof.
  unfold rama. destruct (String.eqb a b); [discriminate|].
  destruct (String.eqb a "piedra" && String.eqb b "tijera") eqn:E1.
  { apply andb_true_iff in E1 as [?%String.eqb_eq ?%String.eqb_eq]. auto. }
  destruct (String.eqb a "papel" && String.eqb b "piedra") eqn:E2.
  { apply andb_true_iff in E2 as [?%String.eqb_eq ?%String.eqb_eq]. auto. }
  destruct (String.eqb a "tijera" && String.eqb b "papel") eqn:E3.
  { apply andb_true_iff in E3 as [?%String.eqb_eq ?%String.eqb_eq]. auto. }
  discriminate.
Qed.

Lemma en_opciones a :
  a ∈ opciones -> a = "piedra" \/ a = "papel" \/ a = "tijera".
Proof.
  intros H. apply list_elem_of_In in H. simpl in H.
  destruct H as [<-|[<-|[<-|[]]]]; auto.
Qed.

(** X15: the branch is a draw exactly when the two choices are the same
    text; a win for one pair of choices is a loss for the swapped pair;
    and between two of the three moves a loss is a win for the swapped
    pair. *)
Theorem X15_rama_simetria (a b : string) :
  (rama a b = Empate <-> a = b)
  /\ (rama a b = Ganaste -> rama b a = Perdiste)
  /\ (a ∈ opciones -> b ∈ opciones ->
      rama a b = Perdiste -> rama b a = Ganaste).
Proof.
  split; [|split].
  - unfold rama. destruct (String.eqb a b) eqn:E.
    + apply String.eqb_eq in E. done.
    + apply String.eqb_neq in E. split; [|done].
      by repeat case_match.
  - intros H. by destruct (rama_ganaste a b H) as [[-> ->]|[[-> ->]|[-> ->]]].
  - intros Ha Hb.
    destruct (en_opciones a Ha) as [->|[->| ->]],
             (en_opciones b Hb) as [->|[->| ->]]; by vm_compute.
Qed.

(** X16: for each of the three moves the three draws of the computer
    give one draw, one win and one loss. *)
Theorem X16_un_resultado_por_tirada (elegirUsuario : string) :
  elegirUsuario ∈ opciones ->
  map (rama elegirUsuario) opciones ≡ₚ [Empate; Ganaste; Perdiste].
Proof.
  intros H. destruct (en_opciones _ H) as [->|[->| ->]].
  - change (map (rama "piedra") opciones) with [Empate; Perdiste; Ganaste].
    constructor. apply perm_swap.
  - change (map (rama "papel") opciones) with [Ganaste; Empate; Perdiste].
    apply perm_swap.
  - change (map (rama "tijera") opciones) with [Perdiste; Ganaste; Empate].
    transitivity [Ganaste; Perdiste; Empate]; [apply perm_swap|].
    transitivity [Ganaste; Empate; Perdiste]; [|apply perm_swap].
    apply perm_skip, perm_swap.
Qed.

(** X17: empty texts in the two slots count as nothing stored when the
    page starts: the statistics stay the all-zero literal, the theme
    follows the system, and the empty texts stay in the storage. *)
Theorem X17_textos_vacios (prefiereOscuro : bool)
    (almacen : gmap string string) (b : Cuerpo) (etiqueta : option string)
    (p : Pantalla) :
  almacen !! STORAGE_KEY = Some "" ->
  almacen !! STORAGE_THEME_KEY = Some "" ->
  exists w,
    iniciarJuego prefiereOscuro (alCargar almacen b etiqueta p) = Some w
    /\ estadisticas w = estadisticasIniciales
    /\ body w = cuerpoDe (resolucion None prefiereOscuro)
    /\ localStorage w = almacen.
Proof.
  intros Hk Ht. unfold iniciarJuego.
  rewrite cargarEstadisticas_vacia by done. cbn [mbind option_bind].
  destruct (actualizarUI_forma (alCargar almacen b etiqueta p) 0 0 0 0 [])
    as [q ->]; [done|done|].
  cbn [mbind option_bind]. eexists. split; [reflexivity|].
  split; [done|]. split; [|done].
  unfold cargarModoOscuro. cbn [localStorage conPantalla alCargar].
  rewrite Ht. by destruct prefiereOscuro.
Qed.

(** ** The message, the reset screen, and independence from the theme *)

Lemma jugarRonda_detalle elegirUsuario azar w w' :
  jugarRonda elegirUsuario azar w = Some w' ->
  exists comp e3 h,
    opciones !! azar = Some comp
    /\ historial e3
       = Some (recorta (objetoRonda elegirUsuario comp
                          (resultadoTipo (rama elegirUsuario comp)) :: h))
    /\ actualizarUI
         (guardarEstadisticas
            (conPantalla
               (conResultado
                  (resultadoTexto (rama elegirUsuario comp)
                     +:+ " (T" +:+ String u_aguda ": " +:+ elegirUsuario
                     +:+ " vs Comp: " +:+ comp +:+ ")")
                  (pantalla w))
               (conEstadisticas e3 w)))
       = Some w'.
Proof.
  unfold jugarRonda. intros H.
  destruct (opciones !! azar) as [comp|]; [|discriminate].
  cbn [mbind option_bind] in H.
  destruct (masMas _ (estadisticas w)) as [e1|]; [|discriminate].
  cbn [mbind option_bind] in H.
  destruct (masMas "rondas" e1) as [e2|]; [|discriminate].
  cbn [mbind option_bind] in H.
  destruct (campo "historial" e2) as [[| | | |h|]|] eqn:Eh; try discriminate.
  destruct e2 as [| | | | |l]; try discriminate.
  cbn [asigna mbind option_bind] in H.
  eexists comp, _, h. split; [done|]. split; [|exact H].
  unfold historial, campo. by rewrite buscar_poner_eq.
Qed.

(** X18: after a round that completes, in any world, the message on the
    screen and the first record of the history tell the same round: the
    same choice of the user, the same move of the computer, and the text
    and the token of the same branch. *)
Theorem X18_mensaje_y_registro (elegirUsuario : string) (azar : nat)
    (w w' : Mundo) :
  jugarRonda elegirUsuario azar w = Some w' ->
  exists comp h',
    opciones !! azar = Some comp
    /\ resultadoPartida (pantalla w')
       = resultadoTexto (rama elegirUsuario comp)
           +:+ " (T" +:+ String u_aguda ": " +:+ elegirUsuario
           +:+ " vs Comp: " +:+ comp +:+ ")"
    /\ historial (estadisticas w') = Some h'
    /\ h' !! 0%nat
       = Some (objetoRonda elegirUsuario comp
                 (resultadoTipo (rama elegirUsuario comp)))
    /\ h' !! 0%nat ≫= leeRonda
       = Some (elegirUsuario, comp, resultadoTipo (rama elegirUsuario comp)).
Proof.
  intros H. apply jugarRonda_detalle in H as (comp & e3 & h & Hc & Hh & H).
  destruct (actualizarUI_forma_de _ _ H) as (p & -> & Hp & _).
  eexists comp, _. split; [done|]. split; [exact Hp|]. split; [exact Hh|].
  assert (forall nuevo, recorta (nuevo :: h) !! 0%nat = Some nuevo) as H0.
  { intros nuevo. unfold recorta. case_match; [|done]. by destruct h. }
  by rewrite H0.
Qed.

(** X19: a reset completes in every world, whatever the statistics were,
    and leaves the screen with the four counters at 0, no history line and
    the reset message; the body, the label and every slot but the
    statistics slot stay as they were. *)
Theorem X19_pantalla_tras_reinicio (w : Mundo) :
  exists w',
    reiniciarResultados w = Some w'
    /\ pantalla w'
       = {| resultadoPartida := mensajeReinicio; rondasJugadas := "0";
            ganadasUsuario := "0"; ganadasComput := "0"; rondasEmpates := "0";
            listaRondas := [] |}
    /\ body w' = body w
    /\ etiquetaModo w' = etiquetaModo w
    /\ delete STORAGE_KEY (localStorage w') = delete STORAGE_KEY (localStorage w).
Proof.
  exists (trasReinicio w). split; [apply reiniciarResultados_efecto|].
  repeat split. apply delete_insert_eq.
Qed.

(** X20: the game does not depend on the theme, the screen or the other
    slots: from two reachable worlds with the same statistics the same
    rounds lead to the same statistics and the same stored text. *)
Theorem X20_juego_independiente_del_tema (w1 w2 : Mundo)
    (rs : list (string * nat)) :
  alcanzable w1 -> alcanzable w2 ->
  estadisticas w1 = estadisticas w2 ->
  Forall (fun x : string * nat => (x.2 < 3)%nat) rs ->
  exists w1' w2',
    jugarRondas rs w1 = Some w1'
    /\ jugarRondas rs w2 = Some w2'
    /\ estadisticas w1' = estadisticas w2'
    /\ (rs <> [] ->
        localStorage w1' !! STORAGE_KEY = localStorage w2' !! STORAGE_KEY).
Proof.
  intros H1 H2 He Hrs.
  destruct (alcanzable_coherente w1 H1)
    as [(r & u & c & e & h & He1 & _ & _ & Hh & Hlen) _].
  assert (estadisticas w2 = objetoEstadisticas r u c e h) as He2
    by (by rewrite <- He).
  destruct (jugarRondas_total rs w1 r u c e h He1 Hh Hlen Hrs)
    as (w1' & Hw1 & Hs1).
  destruct (jugarRondas_total rs w2 r u c e h He2 Hh Hlen Hrs)
    as (w2' & Hw2 & Hs2).
  exists w1', w2'. split; [done|]. split; [done|].
  split; [by rewrite Hs1, Hs2|].
  intros Hne.
  assert (forall w w', jugarRondas rs w = Some w' ->
            localStorage w' !! STORAGE_KEY
            = Some (JSON_stringify (estadisticas w'))) as Hslot.
  { clear -Hne. destruct rs as [|x rs]; [done|]. clear Hne.
    revert x. induction rs as [|y rs IH]; intros [u i] w w' H;
      cbn [jugarRondas] in H;
      (destruct (jugarRonda u i w) as [w0|] eqn:E; [|discriminate]);
      cbn [mbind option_bind] in H.
    - injection H as <-.
      apply jugarRonda_marco in E as (_ & _ & ->). apply lookup_insert_eq.
    - by apply (IH y w0 w'). }
  rewrite (Hslot w1 w1' Hw1), (Hslot w2 w2' Hw2). by rewrite Hs1, Hs2.
Qed.

(** ** Instances of the further properties *)

Lemma X1_testigo :
  estadisticas paginaIniciada = estadisticas paginaIniciada
  /\ localStorage paginaIniciada = localStorage paginaIniciada
  /\ body paginaIniciada = body paginaIniciada
  /\ etiquetaModo paginaIniciada = etiquetaModo paginaIniciada
  /\ resultadoPartida (pantalla paginaIniciada)
     = resultadoPartida (pantalla paginaIniciada)
  /\ actualizarUI paginaIniciada = Some paginaIniciada
  /\ forall q, resultadoPartida q = resultadoPartida (pantalla paginaIniciada) ->
       actualizarUI (conPantalla q paginaIniciada) = Some paginaIniciada.
Proof.
  apply (X1_dibujar_depende_solo_del_estado paginaIniciada paginaIniciada).
  reflexivity.
Defined.

Lemma X2_testigo :
  actualizarUI paginaLlena = Some paginaLlena
  /\ exists rondas usuario computadora empates,
       marcador (estadisticas paginaLlena)
       = Some (rondas, usuario, computadora, empates)
       /\ rondasJugadas (pantalla paginaLlena) = Texto.cadena (Texto.cifras rondas)
       /\ ganadasUsuario (pantalla paginaLlena)
          = Texto.cadena (Texto.cifras usuario)
       /\ ganadasComput (pantalla paginaLlena)
          = Texto.cadena (Texto.cifras computadora)
       /\ rondasEmpates (pantalla paginaLlena)
          = Texto.cadena (Texto.cifras empates).
Proof. apply (X2_pantalla_al_dia paginaLlena). exact alcanzable_paginaLlena. Defined.

Lemma X3_testigo :
  exists h,
    historial (estadisticas paginaLlena) = Some h
    /\ length (listaRondas (pantalla paginaLlena)) = length h
    /\ forall (i : nat) (v : valor),
         h !! i = Some v ->
         exists usuario comp,
           comp ∈ opciones
           /\ v = objetoRonda usuario comp (resultadoTipo (rama usuario comp))
           /\ fst <$> (listaRondas (pantalla paginaLlena) !! i)
              = Some (claseDe (rama usuario comp)).
Proof. apply (X3_lista_dibujada paginaLlena). exact alcanzable_paginaLlena. Defined.

Lemma X4_testigo :
  exists rondas usuario computadora empates h,
    marcador (estadisticas paginaLlena)
    = Some (rondas, usuario, computadora, empates)
    /\ historial (estadisticas paginaLlena) = Some h
    /\ usuario + computadora + empates = rondas
    /\ (0 <= usuario /\ 0 <= computadora /\ 0 <= empates)
    /\ Z.of_nat (length h) = Z.min 5 rondas
    /\ Forall esJugada h
    /\ Forall (fun item => exists elegirUsuario comp,
                  comp ∈ opciones
                  /\ leeRonda item
                     = Some (elegirUsuario, comp,
                             resultadoTipo (rama elegirUsuario comp))) h.
Proof.
  apply (X4_contadores_e_historial paginaLlena). exact alcanzable_paginaLlena.
Defined.

Lemma X5_testigo :
  body (cargarModoOscuro true paginaConOtroTema)
  = if String.eqb "DARK" "" then cuerpoDe (resolucion None true)
    else cuerpoClaro.
Proof.
  apply (X5_tema_guardado_desconocido true paginaConOtroTema "DARK").
  - vm_compute. reflexivity.
  - discriminate.
Defined.

Lemma X6_testigo :
  localStorage paginaIniciada = localStorage paginaNueva
  /\ resultadoPartida (pantalla paginaIniciada)
     = resultadoPartida (pantalla paginaNueva).
Proof.
  apply (X6_iniciar_no_escribe false paginaNueva paginaIniciada).
  reflexivity.
Defined.

Lemma X7_testigo :
  (body paginaLlena = cuerpoClaro \/ body paginaLlena = cuerpoOscuro)
  /\ forall texto, etiquetaModo paginaLlena = Some texto ->
       texto = etiquetaDe (oscuro (body paginaLlena)).
Proof. apply (X7_etiqueta_y_cuerpo paginaLlena). exact alcanzable_paginaLlena. Defined.

Lemma X8_testigo :
  body paginaTrasToggle = body (toggleModoOscuro paginaIniciada)
  /\ oscuro (body paginaTrasToggle) = negb (oscuro (body paginaIniciada)).
Proof.
  apply (X8_toggle_y_recarga paginaIniciada cuerpoClaro None pantallaVacia false
           paginaTrasToggle).
  vm_compute. reflexivity.
Defined.

Lemma X10_testigo :
  body paginaTrasRonda = body paginaIniciada
  /\ etiquetaModo paginaTrasRonda = etiquetaModo paginaIniciada
  /\ localStorage paginaTrasRonda !! STORAGE_THEME_KEY
     = localStorage paginaIniciada !! STORAGE_THEME_KEY
  /\ delete STORAGE_KEY (localStorage paginaTrasRonda)
     = delete STORAGE_KEY (localStorage paginaIniciada)
  /\ localStorage paginaTrasRonda !! STORAGE_KEY
     = Some (JSON_stringify (estadisticas paginaTrasRonda)).
Proof.
  apply (X10_ronda_guarda_y_no_toca_tema "piedra" 2 paginaIniciada
           paginaTrasRonda).
  vm_compute. reflexivity.
Defined.

Lemma X11_testigo :
  match localStorage paginaLlena !! STORAGE_KEY with
  | Some s =>
      s = JSON_stringify (estadisticas paginaLlena)
      /\ JSON_parse s = Some (estadisticas paginaLlena)
  | None => estadisticas paginaLlena = estadisticasIniciales
  end.
Proof. apply (X11_almacen_al_dia paginaLlena). exact alcanzable_paginaLlena. Defined.

Lemma X12_testigo :
  exists w,
    jugarRondas seisRondas paginaIniciada = Some w
    /\ historial (estadisticas w)
       = Some (take 5 (reverse (omap registro seisRondas)))
    /\ length (omap registro seisRondas) = length seisRondas.
Proof.
  apply (X12_historial_ultimas_cinco paginaIniciada seisRondas).
  - reflexivity.
  - unfold seisRondas, cincoRondas. repeat constructor.
Defined.

Lemma X13_testigo :
  exists w,
    jugarRondas seisRondas paginaIniciada = Some w
    /\ marcador (estadisticas w)
       = Some (Z.of_nat (length seisRondas), cuentaRama Ganaste seisRondas,
               cuentaRama Perdiste seisRondas, cuentaRama Empate seisRondas).
Proof.
  apply (X13_contadores_cuentan_ramas paginaIniciada seisRondas).
  - reflexivity.
  - unfold seisRondas, cincoRondas. repeat constructor.
Defined.

Lemma X14_testigo :
  exists w',
    iniciarJuego true (alCargar (localStorage paginaLlena) cuerpoClaro None pantallaVacia)
    = Some w'
    /\ estadisticas w' = estadisticas paginaLlena
    /\ localStorage w' = localStorage paginaLlena
    /\ rondasJugadas (pantalla w') = rondasJugadas (pantalla paginaLlena)
    /\ ganadasUsuario (pantalla w') = ganadasUsuario (pantalla paginaLlena)
    /\ ganadasComput (pantalla w') = ganadasComput (pantalla paginaLlena)
    /\ rondasEmpates (pantalla w') = rondasEmpates (pantalla paginaLlena)
    /\ listaRondas (pantalla w') = listaRondas (pantalla paginaLlena).
Proof.
  apply (X14_recarga_conserva paginaLlena cuerpoClaro None pantallaVacia true).
  exact alcanzable_paginaLlena.
Defined.

Lemma X16_testigo :
  map (rama "papel") opciones ≡ₚ [Empate; Ganaste; Perdiste].
Proof.
  apply (X16_un_resultado_por_tirada "papel").
  apply (bool_decide_unpack _). vm_compute. reflexivity.
Defined.

Lemma X17_testigo :
  exists w,
    iniciarJuego true paginaConVacios = Some w
    /\ estadisticas w = estadisticasIniciales
    /\ body w = cuerpoDe (resolucion None true)
    /\ localStorage w = <[STORAGE_KEY := ""]> (<[STORAGE_THEME_KEY := ""]> ∅).
Proof.
  apply (X17_textos_vacios true
           (<[STORAGE_KEY := ""]> (<[STORAGE_THEME_KEY := ""]> ∅))
           {| oscuro := false; backgroundColor := ""; color := "" |}
           (Some "Cambiar a modo oscuro") pantallaVacia).
  - vm_compute. reflexivity.
  - vm_compute. reflexivity.
Defined.

Lemma X18_testigo :
  exists comp h',
    opciones !! 2%nat = Some comp
    /\ resultadoPartida (pantalla paginaTrasRonda)
       = resultadoTexto (rama "piedra" comp)
           +:+ " (T" +:+ String u_aguda ": " +:+ "piedra"
           +:+ " vs Comp: " +:+ comp +:+ ")"
    /\ historial (estadisticas paginaTrasRonda) = Some h'
    /\ h' !! 0%nat
       = Some (objetoRonda "piedra" comp (resultadoTipo (rama "piedra" comp)))
    /\ h' !! 0%nat ≫= leeRonda
       = Some ("piedra", comp, resultadoTipo (rama "piedra" comp)).
Proof.
  apply (X18_mensaje_y_registro "piedra" 2 paginaIniciada paginaTrasRonda).
  vm_compute. reflexivity.
Defined.

Lemma X20_testigo :
  exists w1' w2',
    jugarRondas cincoRondas paginaIniciada = Some w1'
    /\ jugarRondas cincoRondas (toggleModoOscuro paginaIniciada) = Some w2'
    /\ estadisticas w1' = estadisticas w2'
    /\ (cincoRondas <> [] ->
        localStorage w1' !! STORAGE_KEY = localStorage w2' !! STORAGE_KEY).
Proof.
  apply (X20_juego_independiente_del_tema paginaIniciada
           (toggleModoOscuro paginaIniciada) cincoRondas).
  - exact alcanzable_paginaIniciada.
  - apply alc_toggle. exact alcanzable_paginaIniciada.
  - reflexivity.
  - unfold cincoRondas. repeat constructor.
Defined.
